(** * A reparenting window manager: the window/frame lifecycle

    Shallow embedding of [src/windowManager/window_manager.cpp] and
    [window_manager.hpp].  The manager is a single-threaded Xlib client, so
    every member function becomes a computation in a small state-and-abort
    monad over the manager's fields plus the two things the outside world can
    observe: the sequence of Xlib calls made and the glog records written.

    The X server is an external collaborator.  Its replies are taken from an
    oracle ([XServer]) whose answers may depend on every Xlib call made so
    far, which is the most general deterministic server.

    The source spells a few identifiers inconsistently ([XUngramServer],
    [XselectInput], [clients.erase], [OnDestroyNofity]), and the definition
    of [Frame] omits the flag that its declaration has, its body reads and
    both callers pass.  They are read as the Xlib functions and members they
    stand for. *)

From Stdlib Require Import ZArith String.
From stdpp Require Import base option list gmap.

Local Open Scope string_scope.
Local Open Scope list_scope.
Local Open Scope Z_scope.

(** ** Xlib data *)

(** [Window] is an XID ([unsigned long]); identifiers are only ever compared
    and used as map keys. *)
Abbreviation Window := Z.

(** Constants of [X11/X.h] that the source refers to by name. *)
Definition SubstructureNotifyMask : Z := Z.shiftl 1 19.
Definition SubstructureRedirectMask : Z := Z.shiftl 1 20.
Definition BadAccess : Z := 10.
Definition IsViewable : Z := 2.

(** The fields of [XWindowAttributes] that [Frame] reads.  [override_redirect]
    is an Xlib [Bool], that is an [int] tested for being non-zero. *)
Record XWindowAttributes := {
  attr_x : Z;
  attr_y : Z;
  attr_width : Z;
  attr_height : Z;
  override_redirect : Z;
  map_state : Z
}.

Record XWindowChanges := {
  ch_x : Z;
  ch_y : Z;
  ch_width : Z;
  ch_height : Z;
  ch_border_width : Z;
  ch_sibling : Window;
  ch_stack_mode : Z
}.

Record XErrorEvent := {
  error_code : Z;
  request_code : Z
}.

(** The event structures, with the members the handlers read. *)
Record XMapRequestEvent := { mr_window : Window }.

Record XUnmapEvent := { um_event : Window; um_window : Window }.

Record XConfigureRequestEvent := {
  cr_window : Window;
  cr_x : Z;
  cr_y : Z;
  cr_width : Z;
  cr_height : Z;
  cr_border_width : Z;
  cr_above : Window;
  cr_detail : Z;
  cr_value_mask : Z
}.

(** [XEvent] is a tagged union; the constructors are the [e.type] values the
    dispatcher switches on, [OtherEvent] stands for every other type. *)
Inductive XEvent :=
| CreateNotify (w : Window)
| DestroyNotify (w : Window)
| ReparentNotify (w : Window)
| MapRequest (e : XMapRequestEvent)
| MapNotify (w : Window)
| UnmapNotify (e : XUnmapEvent)
| ConfigureRequest (e : XConfigureRequestEvent)
| ConfigureNotify (w : Window)
| OtherEvent (type : Z).

(** The two static member functions whose addresses are handed to
    [XSetErrorHandler]. *)
Inductive ErrorHandler := addr_OnWMDetected | addr_OnXError.

(** One constructor per Xlib entry point the manager calls, with the
    arguments of the call (the display pointer is the same everywhere). *)
Inductive XCall :=
| CallSetErrorHandler (h : ErrorHandler)
| CallSelectInput (w : Window) (event_mask : Z)
| CallSync (discard : bool)
| CallGrabServer
| CallUngrabServer
| CallQueryTree (w : Window)
| CallFree
| CallGetWindowAttributes (w : Window)
| CallCreateSimpleWindow (parent : Window) (x y width height : Z)
    (border_width border background : Z)
| CallAddToSaveSet (w : Window)
| CallRemoveFromSaveSet (w : Window)
| CallReparentWindow (w parent : Window) (x y : Z)
| CallMapWindow (w : Window)
| CallUnmapWindow (w : Window)
| CallDestroyWindow (w : Window)
| CallConfigureWindow (w : Window) (value_mask : Z) (changes : XWindowChanges)
| CallNextEvent.

(** ** glog *)

Inductive Severity := INFO | WARNING | ERROR | FATAL.

(** A log record: the literal text of the statement and the numbers streamed
    into it. *)
Record LogRecord := {
  severity : Severity;
  text : string;
  args : list Z
}.

(** ** The server oracle *)

Record XServer := {
  (** errors reported to the installed handler while [XSync] waits *)
  sync_errors : list XCall -> list XErrorEvent;
  (** [XQueryTree]: [None] for a zero status, else root, parent, children *)
  query_tree : list XCall -> Window -> option (Window * Window * list Window);
  (** [XGetWindowAttributes]: [None] for a zero status *)
  window_attributes : list XCall -> Window -> option XWindowAttributes;
  (** identifier returned by [XCreateSimpleWindow] *)
  new_window : list XCall -> Window
}.

(** ** The manager's state *)

Record State := {
  root_ : Window;
  clients_ : gmap Window Window;
  wm_detected_ : bool;
  error_handler : option ErrorHandler;
  calls : list XCall;
  log : list LogRecord
}.

Definition set_clients (f : gmap Window Window -> gmap Window Window)
    (st : State) : State :=
  {| root_ := root_ st; clients_ := f (clients_ st);
     wm_detected_ := wm_detected_ st; error_handler := error_handler st;
     calls := calls st; log := log st |}.

Definition set_wm_detected (b : bool) (st : State) : State :=
  {| root_ := root_ st; clients_ := clients_ st;
     wm_detected_ := b; error_handler := error_handler st;
     calls := calls st; log := log st |}.

Definition set_error_handler (h : ErrorHandler) (st : State) : State :=
  {| root_ := root_ st; clients_ := clients_ st;
     wm_detected_ := wm_detected_ st; error_handler := Some h;
     calls := calls st; log := log st |}.

Definition add_call (c : XCall) (st : State) : State :=
  {| root_ := root_ st; clients_ := clients_ st;
     wm_detected_ := wm_detected_ st; error_handler := error_handler st;
     calls := calls st ++ [c]; log := log st |}.

Definition add_log (r : LogRecord) (st : State) : State :=
  {| root_ := root_ st; clients_ := clients_ st;
     wm_detected_ := wm_detected_ st; error_handler := error_handler st;
     calls := calls st; log := log st ++ [r] |}.

(** ** The monad *)

(** A member function either returns, or the process is terminated by a
    failed [CHECK], or (only inside [Run]) the thread is suspended in
    [XNextEvent] with no event left to deliver. *)
Inductive Outcome (A : Type) :=
| Returned (a : A)
| Aborted
| Blocked.
Arguments Returned {A} a.
Arguments Aborted {A}.
Arguments Blocked {A}.

Definition M (A : Type) : Type := State -> Outcome A * State.

#[export] Instance M_ret : MRet M := λ A a st, (Returned a, st).

#[export] Instance M_bind : MBind M := λ A B f m st,
  match m st with
  | (Returned a, st') => f a st'
  | (Aborted, st') => (Aborted, st')
  | (Blocked, st') => (Blocked, st')
  end.

Definition gets {A} (f : State -> A) : M A := λ st, (Returned (f st), st).
Definition modify (f : State -> State) : M unit := λ st, (Returned tt, f st).
Definition abort {A} : M A := λ st, (Aborted, st).
Definition block {A} : M A := λ st, (Blocked, st).

Definition LOG (s : Severity) (t : string) (a : list Z) : M unit :=
  modify (add_log {| severity := s; text := t; args := a |}).

(** glog's [CHECK]: a false condition writes a FATAL record and terminates
    the process. *)
Definition CHECK_failed {A} (expr : string) : M A :=
  LOG FATAL (String.append "Check failed: " expr) [];; abort.

Definition CHECK (cond : bool) (expr : string) : M unit :=
  if cond then mret tt else CHECK_failed expr.

Definition CHECK_EQ (a b : Z) (expr : string) : M unit :=
  CHECK (bool_decide (a = b)) expr.

Fixpoint for_each {A} (l : list A) (body : A -> M unit) : M unit :=
  match l with
  | [] => mret tt
  | x :: l' => body x;; for_each l' body
  end.

(** ** Xlib calls

    Every wrapper records the call; those with a reply ask the oracle, giving
    it the calls made so far including the present one. *)

Section Manager.

Variable srv : XServer.

Definition call (c : XCall) : M unit := modify (add_call c).

Definition XSetErrorHandler (h : ErrorHandler) : M unit :=
  call (CallSetErrorHandler h);; modify (set_error_handler h).

Definition XSelectInput (w : Window) (event_mask : Z) : M unit :=
  call (CallSelectInput w event_mask).

Definition XGrabServer : M unit := call CallGrabServer.
Definition XUngrabServer : M unit := call CallUngrabServer.
Definition XFree : M unit := call CallFree.
Definition XAddToSaveSet (w : Window) : M unit := call (CallAddToSaveSet w).
Definition XRemoveFromSaveSet (w : Window) : M unit :=
  call (CallRemoveFromSaveSet w).
Definition XReparentWindow (w parent : Window) (x y : Z) : M unit :=
  call (CallReparentWindow w parent x y).
Definition XMapWindow (w : Window) : M unit := call (CallMapWindow w).
Definition XUnmapWindow (w : Window) : M unit := call (CallUnmapWindow w).
Definition XDestroyWindow (w : Window) : M unit := call (CallDestroyWindow w).
Definition XConfigureWindow (w : Window) (value_mask : Z)
    (changes : XWindowChanges) : M unit :=
  call (CallConfigureWindow w value_mask changes).

Definition XQueryTree (w : Window)
    : M (option (Window * Window * list Window)) :=
  call (CallQueryTree w);;
  h ← gets calls;
  mret (query_tree srv h w).

Definition XGetWindowAttributes (w : Window) : M (option XWindowAttributes) :=
  call (CallGetWindowAttributes w);;
  h ← gets calls;
  mret (window_attributes srv h w).

Definition XCreateSimpleWindow (parent : Window) (x y width height : Z)
    (border_width border background : Z) : M Window :=
  call (CallCreateSimpleWindow parent x y width height
          border_width border background);;
  h ← gets calls;
  mret (new_window srv h).

(** ** Error handlers *)

Definition OnWMDetected (e : XErrorEvent) : M Z :=
  CHECK_EQ (error_code e) BadAccess
    "static_cast<int>(e->error_code) == BadAccess";;
  modify (set_wm_detected true);;
  mret 0.

(** The body of [OnXError] is a comment. *)
Definition OnXError (e : XErrorEvent) : M Z := mret 0.

(** Xlib calls the handler installed last; with none installed its default
    handler prints the error and exits. *)
Definition invoke_error_handler (e : XErrorEvent) : M unit :=
  h ← gets error_handler;
  match h with
  | Some addr_OnWMDetected => OnWMDetected e;; mret tt
  | Some addr_OnXError => OnXError e;; mret tt
  | None => abort
  end.

(** [XSync] flushes the output buffer and waits until the server has
    processed every request, calling the error handler for each error that
    comes back. *)
Definition XSync (discard : bool) : M unit :=
  call (CallSync discard);;
  h ← gets calls;
  for_each (sync_errors srv h) invoke_error_handler.

(** ** The client registry, [std::unordered_map<Window, Window>] *)

(** [clients_.count(w)] *)
Definition clients_count (w : Window) : M bool :=
  m ← gets clients_;
  mret (bool_decide (is_Some (m !! w))).

(** [clients_[w]] read as an rvalue: [operator[]] value-initialises a missing
    entry (to window 0) and inserts it before returning it. *)
Definition clients_index (w : Window) : M Window :=
  m ← gets clients_;
  match m !! w with
  | Some frame => mret frame
  | None => modify (set_clients (insert w 0));; mret 0
  end.

(** [clients_[w] = frame] *)
Definition clients_assign (w frame : Window) : M unit :=
  modify (set_clients (insert w frame)).

(** [clients_.erase(w)] *)
Definition clients_erase (w : Window) : M unit :=
  modify (set_clients (delete w)).

(** Conversion to [unsigned int], as at the width and height arguments of
    [XCreateSimpleWindow] and the value-mask argument of
    [XConfigureWindow]. *)
Definition to_unsigned_int (z : Z) : Z := z mod 2 ^ 32.

(** ** Framing *)

(** The header declares [Frame(Window w, bool
    was_created_before_window_manager)] and both call sites pass the flag. *)
Definition Frame (w : Window) (was_created_before_window_manager : bool)
    : M unit :=
  let BORDER_WIDTH := 3 in
  let BORDER_COLOR := 0xffff00 in
  let BG_COLOR := 0x0000ff in
  status ← XGetWindowAttributes w;
  match status with
  | None =>
      CHECK_failed "XGetWindowAttributes(display_, w, &x_window_attrs)"
  | Some x_window_attrs =>
      if was_created_before_window_manager
         && (negb (override_redirect x_window_attrs =? 0)
             || negb (map_state x_window_attrs =? IsViewable))
      then mret tt
      else
        root ← gets root_;
        frame ← XCreateSimpleWindow root
                  (attr_x x_window_attrs)
                  (attr_y x_window_attrs)
                  (to_unsigned_int (attr_width x_window_attrs))
                  (to_unsigned_int (attr_height x_window_attrs))
                  BORDER_WIDTH BORDER_COLOR BG_COLOR;
        XSelectInput frame
          (Z.lor SubstructureRedirectMask SubstructureNotifyMask);;
        XAddToSaveSet w;;
        XReparentWindow w frame 0 0;;
        XMapWindow frame;;
        clients_assign w frame;;
        LOG INFO "framed window " [w; frame]
  end.

Definition Unframe (w : Window) : M unit :=
  frame ← clients_index w;
  XUnmapWindow frame;;
  root ← gets root_;
  XReparentWindow w root 0 0;;
  XRemoveFromSaveSet w;;
  XDestroyWindow frame;;
  clients_erase w;;
  LOG INFO "unframed window " [w; frame].

(** ** Event handlers *)

Definition OnCreateNotify (w : Window) : M unit := mret tt.
Definition OnDestroyNotify (w : Window) : M unit := mret tt.
Definition OnReparentNotify (w : Window) : M unit := mret tt.
Definition OnMapNotify (w : Window) : M unit := mret tt.
Definition OnConfigureNotify (w : Window) : M unit := mret tt.

Definition OnMapRequest (e : XMapRequestEvent) : M unit :=
  Frame (mr_window e) false;;
  XMapWindow (mr_window e).

Definition OnUnmapNotify (e : XUnmapEvent) : M unit :=
  present ← clients_count (um_window e);
  if negb present then
    LOG INFO "ignore UnmapNotify for non-client window " [um_window e]
  else
    root ← gets root_;
    if bool_decide (um_event e = root) then
      LOG INFO "ignore UnmapNotify for reparented pre-existing window "
        [um_window e]
    else Unframe (um_window e).

(** [e.value_mask] is an [unsigned long]; the parameter of [XConfigureWindow]
    it is passed to is an [unsigned int]. *)
Definition OnConfigureRequest (e : XConfigureRequestEvent) : M unit :=
  let changes :=
    {| ch_x := cr_x e; ch_y := cr_y e;
       ch_width := cr_width e; ch_height := cr_height e;
       ch_border_width := cr_border_width e;
       ch_sibling := cr_above e; ch_stack_mode := cr_detail e |} in
  present ← clients_count (cr_window e);
  (if (present : bool) return M unit then
     frame ← clients_index (cr_window e);
     XConfigureWindow frame (to_unsigned_int (cr_value_mask e)) changes;;
     LOG INFO "resize [" [frame; cr_width e; cr_height e]
   else mret tt);;
  XConfigureWindow (cr_window e) (to_unsigned_int (cr_value_mask e)) changes;;
  LOG INFO "Resize " [cr_window e; cr_width e; cr_height e].

(** ** [Run] *)

(** The [switch (e.type)] of the main loop. *)
Definition dispatch (e : XEvent) : M unit :=
  match e with
  | CreateNotify w => OnCreateNotify w
  | DestroyNotify w => OnDestroyNotify w
  | ReparentNotify w => OnReparentNotify w
  | MapRequest e => OnMapRequest e
  | MapNotify w => OnMapNotify w
  | UnmapNotify e => OnUnmapNotify e
  | ConfigureRequest e => OnConfigureRequest e
  | ConfigureNotify w => OnConfigureNotify w
  | OtherEvent _ => LOG WARNING "Ignored event" []
  end.

(** [for (;;)]: one iteration per delivered event.  [events] is what the
    server delivers, in order; when it is used up [XNextEvent] suspends the
    thread. *)
Fixpoint event_loop (events : list XEvent) : M unit :=
  match events with
  | [] => call CallNextEvent;; block
  | e :: events' =>
      call CallNextEvent;;
      LOG INFO "Received event: " [];;
      dispatch e;;
      event_loop events'
  end.

Definition Run (events : list XEvent) : M unit :=
  modify (set_wm_detected false);;
  XSetErrorHandler addr_OnWMDetected;;
  root ← gets root_;
  XSelectInput root (Z.lor SubstructureRedirectMask SubstructureNotifyMask);;
  XSync false;;
  detected ← gets wm_detected_;
  if (detected : bool) then
    LOG ERROR "Detected another window manager on display" []
  else
    XSetErrorHandler addr_OnXError;;
    XGrabServer;;
    tree ← XQueryTree root;
    match tree with
    | None =>
        CHECK_failed "XQueryTree(display_, root_, &returned_root, &returned_parent, &top_level_windows, &num_top_level_windows)"
    | Some (returned_root, returned_parent, top_level_windows) =>
        CHECK_EQ returned_root root "returned_root == root_";;
        for_each top_level_windows (λ w, Frame w true);;
        XFree;;
        XUngrabServer;;
        event_loop events
    end.

End Manager.

(** The constructor [WindowManager::WindowManager]: [root_] is the display's
    default root window, [clients_] is default-constructed, the static
    [wm_detected_] is zero-initialised, and nothing has been sent yet. *)
Definition WindowManager_ctor (root : Window) : State :=
  {| root_ := root; clients_ := ∅; wm_detected_ := false;
     error_handler := None; calls := []; log := [] |}.

(** ** Vocabulary for the statements *)

(** [extend st m cs ls] is [st] with registry [m], after the further Xlib
    calls [cs] and log records [ls]; root, flag and handler are those of
    [st]. *)
Definition extend (st : State) (m : gmap Window Window) (cs : list XCall)
    (ls : list LogRecord) : State :=
  {| root_ := root_ st; clients_ := m;
     wm_detected_ := wm_detected_ st; error_handler := error_handler st;
     calls := calls st ++ cs; log := log st ++ ls |}.

Definition info (t : string) (a : list Z) : LogRecord :=
  {| severity := INFO; text := t; args := a |}.

(** The event mask [SubstructureRedirectMask | SubstructureNotifyMask]. *)
Definition substructure_mask : Z :=
  Z.lor SubstructureRedirectMask SubstructureNotifyMask.

(** The three calls of the handshake at the head of [Run]. *)
Definition handshake_calls (root : Window) : list XCall :=
  [CallSetErrorHandler addr_OnWMDetected;
   CallSelectInput root substructure_mask;
   CallSync false].

(** The [XCreateSimpleWindow] call [Frame] makes for a client with
    attributes [a]. *)
Definition create_frame_call (root : Window) (a : XWindowAttributes) : XCall :=
  CallCreateSimpleWindow root (attr_x a) (attr_y a)
    (to_unsigned_int (attr_width a)) (to_unsigned_int (attr_height a))
    3 0xffff00 0x0000ff.

(** The calls of one complete framing of [w] into [frame]. *)
Definition framing_calls (root w : Window) (a : XWindowAttributes)
    (frame : Window) : list XCall :=
  [CallGetWindowAttributes w;
   create_frame_call root a;
   CallSelectInput frame substructure_mask;
   CallAddToSaveSet w;
   CallReparentWindow w frame 0 0;
   CallMapWindow frame].

(** The calls [Unframe] makes for [w] with frame [frame]. *)
Definition unframing_calls (root w frame : Window) : list XCall :=
  [CallUnmapWindow frame;
   CallReparentWindow w root 0 0;
   CallRemoveFromSaveSet w;
   CallDestroyWindow frame].

(** [c] is an [XReparentWindow] of the client [w]. *)
Definition reparents (w : Window) (c : XCall) : bool :=
  match c with
  | CallReparentWindow w' _ _ _ => bool_decide (w' = w)
  | _ => false
  end.

(** [c] is the [XDestroyWindow] of [frame]. *)
Definition destroys (frame : Window) (c : XCall) : bool :=
  match c with
  | CallDestroyWindow f => bool_decide (f = frame)
  | _ => false
  end.

Definition creates_window (c : XCall) : bool :=
  match c with
  | CallCreateSimpleWindow _ _ _ _ _ _ _ _ => true
  | _ => false
  end.

Fixpoint count_calls (p : XCall -> bool) (l : list XCall) : nat :=
  match l with
  | [] => O
  | c :: l' => ((if p c then 1 else 0) + count_calls p l')%nat
  end.

(** Every [XGrabServer] in a call sequence is followed by an
    [XUngrabServer]. *)
Definition hold_released (l : list XCall) : Prop :=
  ∀ i : nat, l !! i = Some CallGrabServer →
    ∃ j : nat, (i < j)%nat ∧ l !! j = Some CallUngrabServer.

(** The calls of [Run] from its first statement up to and including
    [XQueryTree], on the path on which no other manager is detected. *)
Definition enumeration_calls (root : Window) : list XCall :=
  handshake_calls root ++
  [CallSetErrorHandler addr_OnXError; CallGrabServer; CallQueryTree root].

(** The state in which the framing loop of [Run] starts: the flag reset, the
    steady-state handler installed, the server grabbed and queried. *)
Definition grabbed (st : State) : State :=
  {| root_ := root_ st; clients_ := clients_ st; wm_detected_ := false;
     error_handler := Some addr_OnXError;
     calls := calls st ++ enumeration_calls (root_ st); log := log st |}.

(** The state in which [Run] returns after detecting another manager. *)
Definition detected (st : State) : State :=
  {| root_ := root_ st; clients_ := clients_ st; wm_detected_ := true;
     error_handler := Some addr_OnWMDetected;
     calls := calls st ++ handshake_calls (root_ st);
     log := log st ++
            [{| severity := ERROR;
                text := "Detected another window manager on display";
                args := [] |}] |}.

(** [c] is one of the two calls that take and give back the server. *)
Definition holds_server (c : XCall) : bool :=
  match c with
  | CallGrabServer | CallUngrabServer => true
  | _ => false
  end.

(** The part of [Run] before the main loop, as a computation of its own: it
    yields [true] where [Run] returns early and [false] where [Run] goes on
    to the loop.  [Run_startup] below shows that [Run] is this followed by
    the loop. *)
Definition startup (srv : XServer) : M bool :=
  modify (set_wm_detected false);;
  XSetErrorHandler addr_OnWMDetected;;
  root ← gets root_;
  XSelectInput root (Z.lor SubstructureRedirectMask SubstructureNotifyMask);;
  XSync srv false;;
  detected ← gets wm_detected_;
  if (detected : bool) then
    LOG ERROR "Detected another window manager on display" [];;
    mret true
  else
    XSetErrorHandler addr_OnXError;;
    XGrabServer;;
    tree ← XQueryTree srv root;
    match tree with
    | None =>
        CHECK_failed "XQueryTree(display_, root_, &returned_root, &returned_parent, &top_level_windows, &num_top_level_windows)"
    | Some (returned_root, returned_parent, top_level_windows) =>
        CHECK_EQ returned_root root "returned_root == root_";;
        for_each top_level_windows (λ w, Frame srv w true);;
        XFree;;
        XUngrabServer;;
        mret false
    end.

(** The [XWindowChanges] that [OnConfigureRequest] fills in from the
    request. *)
Definition changes_of (e : XConfigureRequestEvent) : XWindowChanges :=
  {| ch_x := cr_x e; ch_y := cr_y e;
     ch_width := cr_width e; ch_height := cr_height e;
     ch_border_width := cr_border_width e;
     ch_sibling := cr_above e; ch_stack_mode := cr_detail e |}.



(** ** Example sessions *)

Definition viewable_attributes : XWindowAttributes :=
  {| attr_x := 10; attr_y := 20; attr_width := 300; attr_height := 200;
     override_redirect := 0; map_state := IsViewable |}.

Definition popup_attributes : XWindowAttributes :=
  {| attr_x := 0; attr_y := 0; attr_width := 50; attr_height := 60;
     override_redirect := 1; map_state := IsViewable |}.

Definition unmapped_attributes : XWindowAttributes :=
  {| attr_x := 5; attr_y := 6; attr_width := 70; attr_height := 80;
     override_redirect := 0; map_state := 0 |}.

(** Windows 11 and 13 are ordinary mapped windows, 12 is an
    override-redirect popup, 14 is unmapped; nothing else exists. *)
Definition example_attributes (w : Window) : option XWindowAttributes :=
  if bool_decide (w = 11 ∨ w = 13) then Some viewable_attributes
  else if bool_decide (w = 12) then Some popup_attributes
  else if bool_decide (w = 14) then Some unmapped_attributes
  else None.

(** A display without a window manager: the root (window 1) has the three
    children 11, 12, 13, and new windows are numbered by the length of the
    call history. *)
Definition example_server : XServer :=
  {| sync_errors := λ _, [];
     query_tree := λ _ w, Some (w, 0, [11; 12; 13]);
     window_attributes := λ _ w, example_attributes w;
     new_window := λ h, 1000 + Z.of_nat (length h) |}.

(** The same display with a window manager already running: selecting
    substructure redirection on the root is refused. *)
Definition busy_server : XServer :=
  {| sync_errors := λ _, [{| error_code := BadAccess; request_code := 2 |}];
     query_tree := query_tree example_server;
     window_attributes := window_attributes example_server;
     new_window := new_window example_server |}.

(** A display whose [XQueryTree] fails. *)
Definition treeless_server : XServer :=
  {| sync_errors := λ _, [];
     query_tree := λ _ _, None;
     window_attributes := window_attributes example_server;
     new_window := new_window example_server |}.

(** A display on which window 11 is gone by the time it is looked at. *)
Definition vanishing_server : XServer :=
  {| sync_errors := λ _, [];
     query_tree := query_tree example_server;
     window_attributes := λ _ _, None;
     new_window := new_window example_server |}.

Definition example_state : State := WindowManager_ctor 1.

(** A manager that has framed window 11 in frame 1008. *)
Definition framed_state : State :=
  {| root_ := 1; clients_ := {[ 11 := 1008 ]}; wm_detected_ := false;
     error_handler := Some addr_OnXError; calls := []; log := [] |}.

Definition resize_request (w : Window) : XConfigureRequestEvent :=
  {| cr_window := w; cr_x := 1; cr_y := 2; cr_width := 640; cr_height := 480;
     cr_border_width := 0; cr_above := 0; cr_detail := 0;
     cr_value_mask := 12 |}.


(** A display on which window 12, enumerated between the ordinary windows
    11 and 13, cannot be queried. *)
Definition gap_server : XServer :=
  {| sync_errors := λ _, [];
     query_tree := query_tree example_server;
     window_attributes := λ _ w,
       if bool_decide (w = 12) then None else example_attributes w;
     new_window := new_window example_server |}.

(** ** Further vocabulary *)

(** The test [Frame] applies to a pre-existing window, negated: the window is
    neither override-redirect nor other than viewable. *)
Definition manageable (a : XWindowAttributes) : bool :=
  (override_redirect a =? 0) && (map_state a =? IsViewable).

(** The event types whose handlers have an empty body, and the types the
    dispatcher does not know. *)
Definition quiet_event (e : XEvent) : bool :=
  match e with
  | CreateNotify _ | DestroyNotify _ | ReparentNotify _ | MapNotify _
  | ConfigureNotify _ | OtherEvent _ => true
  | MapRequest _ | UnmapNotify _ | ConfigureRequest _ => false
  end.

Definition is_map_request (e : XEvent) : bool :=
  match e with
  | MapRequest _ => true
  | _ => false
  end.

Definition is_next_event (c : XCall) : bool :=
  match c with
  | CallNextEvent => true
  | _ => false
  end.

(** [e] is an unmap notification whose reporting window is [root]. *)
Definition unmap_reported_by (root : Window) (e : XEvent) : bool :=
  match e with
  | UnmapNotify u => bool_decide (um_event u = root)
  | _ => false
  end.

(** The state in which [XSync] hands the errors of the handshake to the
    handler. *)
Definition listening (st : State) : State :=
  {| root_ := root_ st; clients_ := clients_ st; wm_detected_ := false;
     error_handler := Some addr_OnWMDetected;
     calls := calls st ++ handshake_calls (root_ st); log := log st |}.

(** A display that answers the handshake with a [BadWindow] error
    (code 3). *)
Definition confused_server : XServer :=
  {| sync_errors := λ _, [{| error_code := 3; request_code := 2 |}];
     query_tree := query_tree example_server;
     window_attributes := window_attributes example_server;
     new_window := new_window example_server |}.

(** A display whose [XQueryTree] reports another root than the one asked
    about. *)
Definition misrooted_server : XServer :=
  {| sync_errors := λ _, [];
     query_tree := λ _ w, Some (w + 1, 0, [11; 12; 13]);
     window_attributes := window_attributes example_server;
     new_window := new_window example_server |}.

(** ** Equations of the operations *)

Lemma extend_nothing (st : State) : extend st (clients_ st) [] [] = st.
Proof. destruct st; unfold extend; cbn. by rewrite !app_nil_r. Qed.

Lemma extend_extend (st : State) m cs ls m' cs' ls' :
  extend (extend st m cs ls) m' cs' ls' = extend st m' (cs ++ cs') (ls ++ ls').
Proof. unfold extend; cbn. by rewrite !app_assoc. Qed.

Lemma bind_returned {A B} (m : M A) (f : A -> M B) st a st' :
  m st = (Returned a, st') → (m ≫= f) st = f a st'.
Proof. intros H. unfold mbind, M_bind. by rewrite H. Qed.

Lemma bind_aborted {A B} (m : M A) (f : A -> M B) st st' :
  m st = (Aborted, st') → (m ≫= f) st = (Aborted, st').
Proof. intros H. unfold mbind, M_bind. by rewrite H. Qed.


(** Unfolds the straight-line part of a member function applied to a
    state. *)
Ltac run_m :=
  unfold clients_count, clients_index, clients_assign, clients_erase,
    XConfigureWindow, XUnmapWindow, XReparentWindow, XRemoveFromSaveSet,
    XDestroyWindow, XMapWindow, XAddToSaveSet, XSelectInput, XGrabServer,
    XUngrabServer, XFree, XSetErrorHandler, XCreateSimpleWindow,
    XGetWindowAttributes, XQueryTree, CHECK_EQ, CHECK, CHECK_failed, LOG,
    call, gets, modify, abort, block;
  unfold mbind, M_bind, mret, M_ret; cbn;
  unfold add_log, add_call, set_clients, set_wm_detected, set_error_handler;
  cbn.

(** Brings a call sequence into the form [calls st ++ [c1; ...; cn]]. *)
Ltac norm_calls := rewrite <- ?app_assoc; cbn [app].

Lemma Unframe_eq (w : Window) (st : State) :
  Unframe w st =
    (Returned tt,
     extend st (delete w (clients_ st))
       (unframing_calls (root_ st) w (default 0 (clients_ st !! w)))
       [info "unframed window " [w; default 0 (clients_ st !! w)]]).
Proof.
  unfold Unframe, extend, unframing_calls, info. run_m.
  destruct (clients_ st !! w) as [frame|]; cbn; norm_calls; [done|].
  by rewrite delete_insert_eq.
Qed.

Lemma OnUnmapNotify_eq (e : XUnmapEvent) (st : State) :
  OnUnmapNotify e st =
    if bool_decide (is_Some (clients_ st !! um_window e)) then
      if bool_decide (um_event e = root_ st) then
        (Returned tt,
         extend st (clients_ st) []
           [info "ignore UnmapNotify for reparented pre-existing window "
              [um_window e]])
      else Unframe (um_window e) st
    else
      (Returned tt,
       extend st (clients_ st) []
         [info "ignore UnmapNotify for non-client window " [um_window e]]).
Proof.
  unfold OnUnmapNotify, extend, info. run_m.
  destruct (bool_decide (is_Some (clients_ st !! um_window e))); cbn;
    [destruct (bool_decide (um_event e = root_ st)); cbn|];
    by rewrite ?app_nil_r.
Qed.

Section Framing.

Variable srv : XServer.

Lemma Frame_query_failed (w : Window) (b : bool) (st : State) :
  window_attributes srv (calls st ++ [CallGetWindowAttributes w]) w = None →
  Frame srv w b st =
    (Aborted,
     extend st (clients_ st) [CallGetWindowAttributes w]
       [{| severity := FATAL;
           text := "Check failed: XGetWindowAttributes(display_, w, &x_window_attrs)";
           args := [] |}]).
Proof. intros H. unfold Frame, extend. run_m. by rewrite H. Qed.

Lemma Frame_excluded (w : Window) (st : State) (a : XWindowAttributes) :
  window_attributes srv (calls st ++ [CallGetWindowAttributes w]) w = Some a →
  override_redirect a ≠ 0 ∨ map_state a ≠ IsViewable →
  Frame srv w true st =
    (Returned tt, extend st (clients_ st) [CallGetWindowAttributes w] []).
Proof.
  intros H Hex. unfold Frame, extend. run_m. rewrite H; cbn.
  assert (negb (override_redirect a =? 0) || negb (map_state a =? IsViewable)
          = true) as ->.
  { destruct Hex as [Hex|Hex]; apply Z.eqb_neq in Hex; rewrite Hex; cbn;
      [done | by rewrite orb_true_r]. }
  by rewrite app_nil_r.
Qed.

Lemma Frame_framed (w : Window) (b : bool) (st : State)
    (a : XWindowAttributes) :
  window_attributes srv (calls st ++ [CallGetWindowAttributes w]) w = Some a →
  b = false ∨ (override_redirect a = 0 ∧ map_state a = IsViewable) →
  let frame :=
    new_window srv
      (calls st ++ [CallGetWindowAttributes w; create_frame_call (root_ st) a])
  in
  Frame srv w b st =
    (Returned tt,
     extend st (<[w := frame]> (clients_ st))
       (framing_calls (root_ st) w a frame)
       [info "framed window " [w; frame]]).
Proof.
  intros H Hin.
  unfold Frame, extend, framing_calls, create_frame_call, substructure_mask,
    info.
  run_m. rewrite H; cbn.
  assert (b && (negb (override_redirect a =? 0)
                || negb (map_state a =? IsViewable)) = false) as ->.
  { destruct Hin as [->|[-> ->]]; [done|]. by rewrite andb_false_r. }
  cbn. by norm_calls.
Qed.

End Framing.

(** ** The scenarios of the specification, evaluated *)

(** Three windows exist before the manager, one of them override-redirect:
    two frames are created and two clients registered. *)
Example scenario_three_preexisting_windows :
  let st' := (Run example_server [] example_state).2 in
  size (clients_ st') = 2%nat ∧
  count_calls creates_window (calls st') = 2%nat ∧
  clients_ st' !! 11 = Some 1008 ∧
  clients_ st' !! 12 = None ∧
  clients_ st' !! 13 = Some 1015.
Proof. by vm_compute. Qed.

(** An unmap-notify reported by the frame unframes its client: the frame is
    destroyed and the registry shrinks by one. *)
Example scenario_unmap_reported_by_frame :
  let st' :=
    (Run example_server [UnmapNotify {| um_event := 1008; um_window := 11 |}]
       example_state).2 in
  size (clients_ st') = 1%nat ∧
  clients_ st' !! 11 = None ∧
  count_calls (destroys 1008) (calls st') = 1%nat.
Proof. by vm_compute. Qed.

(** A resize request with value-mask [CWWidth | CWHeight] for a framed
    client. *)
Example scenario_resize_of_framed_client :
  calls (OnConfigureRequest (resize_request 11) framed_state).2 =
    [CallConfigureWindow 1008 12 (changes_of (resize_request 11));
     CallConfigureWindow 11 12 (changes_of (resize_request 11))].
Proof. reflexivity. Qed.

(** ** The unmap handler and [Unframe] *)

(** C7: for a window that is not in the registry, the unmap-notify handler
    returns having made no Xlib call and having left every field of the
    manager as it was; its only trace is one INFO log record. *)
Theorem unmap_notify_of_unframed_window_has_no_effect
    (e : XUnmapEvent) (st : State) :
  clients_ st !! um_window e = None →
  let '(out, st') := OnUnmapNotify e st in
  out = Returned tt ∧
  calls st' = calls st ∧
  clients_ st' = clients_ st ∧
  root_ st' = root_ st ∧
  wm_detected_ st' = wm_detected_ st ∧
  error_handler st' = error_handler st ∧
  log st' =
    log st ++ [info "ignore UnmapNotify for non-client window " [um_window e]].
Proof.
  intros Habsent. rewrite OnUnmapNotify_eq, Habsent.
  rewrite bool_decide_eq_false_2 by (intros [? ?]; discriminate).
  cbn. by rewrite app_nil_r.
Qed.

Lemma unmap_notify_of_unframed_window_has_no_effect_witness :
  let '(out, st') :=
    OnUnmapNotify {| um_event := 1008; um_window := 12 |} framed_state in
  out = Returned tt ∧
  calls st' = calls framed_state ∧
  clients_ st' = clients_ framed_state ∧
  root_ st' = root_ framed_state ∧
  wm_detected_ st' = wm_detected_ framed_state ∧
  error_handler st' = error_handler framed_state ∧
  log st' =
    log framed_state ++ [info "ignore UnmapNotify for non-client window " [12]].
Proof.
  apply (unmap_notify_of_unframed_window_has_no_effect
           {| um_event := 1008; um_window := 12 |} framed_state).
  reflexivity.
Defined.

(** C8: for a window in the registry, an unmap-notify reported by the root
    window leads to no [Unframe]: no Xlib call is made, so the frame is
    neither unmapped nor destroyed, and the registry still maps the window
    to the same frame. *)
Theorem unmap_notify_reported_by_root_keeps_frame
    (e : XUnmapEvent) (st : State) (frame : Window) :
  clients_ st !! um_window e = Some frame →
  um_event e = root_ st →
  let '(out, st') := OnUnmapNotify e st in
  out = Returned tt ∧
  calls st' = calls st ∧
  clients_ st' = clients_ st ∧
  clients_ st' !! um_window e = Some frame ∧
  log st' =
    log st ++
    [info "ignore UnmapNotify for reparented pre-existing window "
       [um_window e]].
Proof.
  intros Hframed Hroot. rewrite OnUnmapNotify_eq, Hframed.
  rewrite bool_decide_eq_true_2 by eauto.
  rewrite bool_decide_eq_true_2 by done.
  cbn. by rewrite app_nil_r.
Qed.

Lemma unmap_notify_reported_by_root_keeps_frame_witness :
  let '(out, st') :=
    OnUnmapNotify {| um_event := 1; um_window := 11 |} framed_state in
  out = Returned tt ∧
  calls st' = calls framed_state ∧
  clients_ st' = clients_ framed_state ∧
  clients_ st' !! 11 = Some 1008 ∧
  log st' =
    log framed_state ++
    [info "ignore UnmapNotify for reparented pre-existing window " [11]].
Proof.
  apply (unmap_notify_reported_by_root_keeps_frame
           {| um_event := 1; um_window := 11 |} framed_state 1008);
    reflexivity.
Defined.



(** ** The configuration relay *)

Lemma OnConfigureRequest_eq (e : XConfigureRequestEvent) (st : State) :
  OnConfigureRequest e st =
    (Returned tt,
     match clients_ st !! cr_window e with
     | Some frame =>
         extend st (clients_ st)
           [CallConfigureWindow frame (to_unsigned_int (cr_value_mask e))
              (changes_of e);
            CallConfigureWindow (cr_window e)
              (to_unsigned_int (cr_value_mask e)) (changes_of e)]
           [info "resize [" [frame; cr_width e; cr_height e];
            info "Resize " [cr_window e; cr_width e; cr_height e]]
     | None =>
         extend st (clients_ st)
           [CallConfigureWindow (cr_window e)
              (to_unsigned_int (cr_value_mask e)) (changes_of e)]
           [info "Resize " [cr_window e; cr_width e; cr_height e]]
     end).
Proof.
  unfold OnConfigureRequest, extend, changes_of, info. run_m.
  destruct (clients_ st !! cr_window e) as [frame|] eqn:Hframe; cbn;
    rewrite ?Hframe; cbn; by norm_calls.
Qed.







(** ** Framing *)

Section FramingClaims.

Variable srv : XServer.

(** C4, as the code has it: when the attribute query of [Frame] fails, no
    frame is created (the query is the only Xlib call) and the registry is
    unchanged, but [Frame] does not return: the [CHECK] around the query
    writes a FATAL record and terminates the process. *)
Theorem Frame_aborts_when_query_fails (w : Window) (b : bool) (st : State) :
  window_attributes srv (calls st ++ [CallGetWindowAttributes w]) w = None →
  let '(out, st') := Frame srv w b st in
  out = Aborted ∧
  calls st' = calls st ++ [CallGetWindowAttributes w] ∧
  clients_ st' = clients_ st ∧
  log st' =
    log st ++
    [{| severity := FATAL;
        text := "Check failed: XGetWindowAttributes(display_, w, &x_window_attrs)";
        args := [] |}].
Proof. intros Hgone. by rewrite Frame_query_failed. Qed.

(** C9, as the code has it: a map-request for a window that is already
    registered goes through [Frame] again, with the pre-existing flag false.
    When the window's attributes can be read, the calls are those of one
    framing followed by [XMapWindow] of the client, and the registry entry
    is overwritten with the new frame; the one [XReparentWindow] among them
    moves the client out of the frame registered before into the new one.
    When the query fails, the [CHECK] in [Frame] terminates the process: the
    query is the only call, the client is not mapped, and the entry keeps
    the frame registered before.  In both cases no [XUnmapWindow] and no
    [XDestroyWindow] is issued, for the old frame or any other window. *)
Theorem map_request_reframes_registered_window
    (e : XMapRequestEvent) (st : State) (old : Window) :
  clients_ st !! mr_window e = Some old →
  let w := mr_window e in
  let '(out, st') := OnMapRequest srv e st in
  match window_attributes srv (calls st ++ [CallGetWindowAttributes w]) w with
  | Some a =>
      let frame :=
        new_window srv
          (calls st
           ++ [CallGetWindowAttributes w; create_frame_call (root_ st) a]) in
      out = Returned tt ∧
      calls st' =
        calls st ++
        [CallGetWindowAttributes w; create_frame_call (root_ st) a;
         CallSelectInput frame substructure_mask; CallAddToSaveSet w;
         CallReparentWindow w frame 0 0; CallMapWindow frame;
         CallMapWindow w] ∧
      clients_ st' = <[w := frame]> (clients_ st) ∧
      clients_ st' !! w = Some frame
  | None =>
      out = Aborted ∧
      calls st' = calls st ++ [CallGetWindowAttributes w] ∧
      clients_ st' = clients_ st ∧
      clients_ st' !! w = Some old
  end ∧
  ∃ cs, calls st' = calls st ++ cs ∧
        (∀ f, CallUnmapWindow f ∉ cs) ∧
        (∀ f, CallDestroyWindow f ∉ cs).
Proof.
  intros Hold w.
  destruct (window_attributes srv (calls st ++ [CallGetWindowAttributes w]) w)
    as [a|] eqn:Hattrs.
  - unfold OnMapRequest.
    rewrite (bind_returned _ _ _ _ _ (Frame_framed srv w false st a Hattrs
                                        (or_introl eq_refl))).
    unfold extend, framing_calls. run_m. norm_calls.
    split; [split_and!; [done..|by rewrite lookup_insert_eq]|].
    eexists. split; [done|].
    split; intros f Hin; rewrite !elem_of_cons, elem_of_nil in Hin;
      by repeat (destruct Hin as [?|Hin]; [done|]).
  - unfold OnMapRequest.
    rewrite (bind_aborted _ _ _ _ (Frame_query_failed srv w false st Hattrs)).
    cbn [extend calls clients_]. split; [by split_and!|].
    eexists. split; [done|].
    split; intros f Hin%list_elem_of_singleton; discriminate.
Qed.

End FramingClaims.

(** ** [Run]: start-up and main loop *)

Section RunLemmas.

Variable srv : XServer.

(** [Run] is [startup] followed, unless another manager was detected, by the
    main loop. *)
Lemma Run_startup (events : list XEvent) (st : State) :
  Run srv events st =
    (detected ← startup srv;
     if (detected : bool) then mret tt else event_loop srv events) st.
Proof.
  unfold Run, startup, XSync. run_m.
  destruct (for_each _ invoke_error_handler _) as [[[]| |] st1]; [|done..].
  destruct (wm_detected_ st1); [done|]. cbn.
  destruct (query_tree srv _ _) as [[[r p] tl]|]; [|done]. cbn.
  destruct (bool_decide (r = root_ st)); [|done]. cbn.
  destruct (for_each tl _ _) as [[[]| |] st2]; done.
Qed.

(** *** What every step does to the state

    After the handshake every operation leaves a state of the form
    [extend st m cs ls]: root, flag and handler stay, calls and log records
    are only appended. *)

Lemma Frame_extends (w : Window) (b : bool) (st : State) :
  ∃ out m cs ls,
    Frame srv w b st = (out, extend st m cs ls) ∧
    (out = Returned tt ∨ out = Aborted) ∧
    Forall (λ c, holds_server c = false) cs ∧
    (∀ w', m !! w' = clients_ st !! w' ∨ (w' = w ∧ is_Some (m !! w'))).
Proof.
  destruct (window_attributes srv (calls st ++ [CallGetWindowAttributes w]) w)
    as [a|] eqn:Hattrs.
  - destruct (decide (b = false ∨
                      (override_redirect a = 0 ∧ map_state a = IsViewable)))
      as [Hin|Hex].
    + eexists _, _, _, _. split; [by apply Frame_framed|].
      split_and!; [by left|by repeat constructor|].
      intros w'. destruct (decide (w' = w)) as [->|Hne].
      * right. by rewrite lookup_insert_eq.
      * left. by rewrite lookup_insert_ne.
    + assert (b = true) as -> by (destruct b; [done|]; by destruct Hex; left).
      eexists _, _, _, _. split.
      { apply (Frame_excluded srv w st a Hattrs).
        destruct (decide (override_redirect a = 0)); [|by left].
        destruct (decide (map_state a = IsViewable)); [|by right].
        destruct Hex. by right. }
      split_and!; [by left|by repeat constructor|by left].
  - eexists _, _, _, _. split; [by apply Frame_query_failed|].
    split_and!; [by right|by repeat constructor|by left].
Qed.

Lemma startup_loop_extends (tl : list Window) (st : State) :
  ∃ out m cs ls,
    for_each tl (λ w, Frame srv w true) st = (out, extend st m cs ls) ∧
    (out = Returned tt ∨ out = Aborted) ∧
    Forall (λ c, holds_server c = false) cs ∧
    (∀ w, m !! w = clients_ st !! w ∨ (w ∈ tl ∧ is_Some (m !! w))).
Proof.
  revert st. induction tl as [|x tl IH]; intros st.
  - exists (Returned tt), (clients_ st), [], []. cbn.
    rewrite extend_nothing. split_and!; [done|by left|done|by left].
  - destruct (Frame_extends x true st) as (out1 & m1 & cs1 & ls1 & E1 & O1 & F1 & R1).
    cbn [for_each]. destruct O1 as [->| ->].
    + rewrite (bind_returned _ _ _ _ _ E1).
      destruct (IH (extend st m1 cs1 ls1))
        as (out2 & m2 & cs2 & ls2 & E2 & O2 & F2 & R2).
      rewrite E2, extend_extend. eexists _, _, _, _. split; [done|].
      split_and!; [done|by apply Forall_app_2|].
      intros w. destruct (R2 w) as [R2w|[Hin Hsome]].
      * cbn in R2w. rewrite R2w. destruct (R1 w) as [R1w|[-> Hsome]].
        -- by left.
        -- right. split; [by left|done].
      * right. split; [by right|done].
    + rewrite (bind_aborted _ _ _ _ E1). eexists _, _, _, _. split; [done|].
      split_and!; [by right|done|].
      intros w. destruct (R1 w) as [R1w|[-> Hsome]]; [by left|].
      right. split; [by left|done].
Qed.

Lemma dispatch_extends (e : XEvent) (st : State) :
  ∃ out m cs ls,
    dispatch srv e st = (out, extend st m cs ls) ∧
    (out = Returned tt ∨ out = Aborted) ∧
    Forall (λ c, holds_server c = false) cs.
Proof.
  assert (∃ out m cs ls,
    (Returned tt, st) = (out, extend st m cs ls) ∧
    (out = Returned tt ∨ out = Aborted) ∧
    Forall (λ c, holds_server c = false) cs) as Hnothing.
  { exists (Returned tt), (clients_ st), [], []. rewrite extend_nothing.
    split_and!; [done|by left|done]. }
  destruct e as [w|w|w|e|w|e|e|w|type]; cbn [dispatch]; try exact Hnothing.
  - unfold OnMapRequest.
    destruct (Frame_extends (mr_window e) false st)
      as (out1 & m1 & cs1 & ls1 & E1 & [->| ->] & F1 & R1).
    + rewrite (bind_returned _ _ _ _ _ E1).
      exists (Returned tt), m1, (cs1 ++ [CallMapWindow (mr_window e)]), ls1.
      split_and!; [|by left|apply Forall_app_2; by repeat constructor].
      unfold extend. run_m. by rewrite app_assoc.
    + rewrite (bind_aborted _ _ _ _ E1). eexists _, _, _, _.
      split_and!; [done|by right|done].
  - rewrite OnUnmapNotify_eq.
    repeat case_bool_decide; rewrite ?Unframe_eq; eexists _, _, _, _;
      (split_and!; [done|by left|by repeat constructor]).
  - rewrite OnConfigureRequest_eq.
    destruct (clients_ st !! cr_window e); eexists _, _, _, _;
      (split_and!; [done|by left|by repeat constructor]).
  - exists (Returned tt), (clients_ st), [],
      [{| severity := WARNING; text := "Ignored event"; args := [] |}].
    split_and!; [|by left|done].
    unfold extend. run_m. by rewrite app_nil_r.
Qed.

Lemma event_loop_cons (e : XEvent) (events : list XEvent) (st : State) :
  event_loop srv (e :: events) st =
    (dispatch srv e;; event_loop srv events)
      (extend st (clients_ st) [CallNextEvent] [info "Received event: " []]).
Proof. cbn [event_loop]. unfold extend, info. by run_m. Qed.

Lemma event_loop_extends (events : list XEvent) (st : State) :
  ∃ out m cs ls,
    event_loop srv events st = (out, extend st m cs ls) ∧
    (out = Blocked ∨ out = Aborted) ∧
    Forall (λ c, holds_server c = false) cs ∧
    (events = [] → out = Blocked ∧ m = clients_ st ∧ cs = [CallNextEvent]).
Proof.
  revert st. induction events as [|e events IH]; intros st.
  - exists Blocked, (clients_ st), [CallNextEvent], [].
    split_and!; [|by left|by repeat constructor|done].
    cbn. unfold extend. run_m. by rewrite app_nil_r.
  - rewrite event_loop_cons.
    destruct (dispatch_extends e
                (extend st (clients_ st) [CallNextEvent]
                   [info "Received event: " []]))
      as (out1 & m1 & cs1 & ls1 & E1 & [->| ->] & F1).
    + rewrite (bind_returned _ _ _ _ _ E1).
      destruct (IH (extend (extend st (clients_ st) [CallNextEvent]
                              [info "Received event: " []]) m1 cs1 ls1))
        as (out2 & m2 & cs2 & ls2 & E2 & O2 & F2 & _).
      rewrite E2, !extend_extend. eexists _, _, _, _. split; [done|].
      split_and!; [done| |done].
      repeat apply Forall_app_2; by repeat constructor.
    + rewrite (bind_aborted _ _ _ _ E1), !extend_extend.
      eexists _, _, _, _. split; [done|].
      split_and!; [by right| |done].
      repeat apply Forall_app_2; by repeat constructor.
Qed.

(** *** The paths through [startup] *)

Lemma startup_detected (st : State) (e : XErrorEvent) :
  sync_errors srv (calls st ++ handshake_calls (root_ st)) = [e] →
  error_code e = BadAccess →
  startup srv st = (Returned true, detected st).
Proof.
  intros Herrs Hcode.
  unfold startup, XSync, detected, handshake_calls, substructure_mask in *.
  run_m. norm_calls. rewrite Herrs. cbn.
  unfold invoke_error_handler, OnWMDetected. run_m.
  by rewrite Hcode.
Qed.

Lemma startup_undetected (st : State) :
  sync_errors srv (calls st ++ handshake_calls (root_ st)) = [] →
  startup srv st =
    match query_tree srv (calls st ++ enumeration_calls (root_ st))
            (root_ st) with
    | None =>
        (Aborted,
         extend (grabbed st) (clients_ st) []
           [{| severity := FATAL;
               text := "Check failed: XQueryTree(display_, root_, &returned_root, &returned_parent, &top_level_windows, &num_top_level_windows)";
               args := [] |}])
    | Some (returned_root, _, top_level_windows) =>
        if bool_decide (returned_root = root_ st) then
          (for_each top_level_windows (λ w, Frame srv w true);;
           XFree;; XUngrabServer;; mret false) (grabbed st)
        else
          (Aborted,
           extend (grabbed st) (clients_ st) []
             [{| severity := FATAL;
                 text := "Check failed: returned_root == root_";
                 args := [] |}])
    end.
Proof.
  intros Herrs.
  unfold startup, XSync, grabbed, extend, enumeration_calls, handshake_calls,
    substructure_mask in *.
  run_m. norm_calls. rewrite Herrs. cbn.
  norm_calls.
  destruct (query_tree srv _ _) as [[[r p] tl]|]; cbn;
    [destruct (bool_decide (r = root_ st)); cbn|];
    by rewrite ?app_nil_r.
Qed.

Lemma invoke_OnWMDetected (e : XErrorEvent) (s : State) :
  error_handler s = Some addr_OnWMDetected →
  invoke_error_handler e s =
    if bool_decide (error_code e = BadAccess)
    then (Returned tt, set_wm_detected true s)
    else
      (Aborted,
       extend s (clients_ s) []
         [{| severity := FATAL;
             text := "Check failed: static_cast<int>(e->error_code) == BadAccess";
             args := [] |}]).
Proof.
  intros Hh. unfold invoke_error_handler, OnWMDetected, extend.
  unfold mbind, M_bind, gets at 1. rewrite Hh. run_m.
  case_bool_decide; cbn; by rewrite ?app_nil_r, ?Hh.
Qed.

(** Errors handed to [OnWMDetected] change nothing but the flag and the
    log, and end in a return or in a failed [CHECK_EQ]. *)
Lemma errors_to_OnWMDetected (errs : list XErrorEvent) (s : State) :
  error_handler s = Some addr_OnWMDetected →
  ∃ out s',
    for_each errs invoke_error_handler s = (out, s') ∧
    (out = Returned tt ∨ out = Aborted) ∧
    root_ s' = root_ s ∧ clients_ s' = clients_ s ∧ calls s' = calls s.
Proof.
  revert s. induction errs as [|e errs IH]; intros s Hh.
  - exists (Returned tt), s. split_and!; [done|by left|done..].
  - cbn [for_each].
    pose proof (invoke_OnWMDetected e s Hh) as E1.
    case_bool_decide.
    + rewrite (bind_returned _ _ _ _ _ E1).
      destruct (IH (set_wm_detected true s) Hh)
        as (out & s' & E & O & R & C & L).
      exists out, s'. by split_and!.
    + rewrite (bind_aborted _ _ _ _ E1). eexists _, _.
      split_and!; [done|by right|cbn..]; [done|done|by rewrite app_nil_r].
Qed.

(** Every path through [startup]: another manager detected; a failed
    [CHECK] before the server is given back; or the complete sequence that
    ends with [XFree] and [XUngrabServer].  On each of them a registry entry
    that differs from before is an entry of an enumerated window. *)
Lemma startup_cases (st : State) :
  ∃ out st' cs,
    startup srv st = (out, st') ∧ calls st' = calls st ++ cs ∧
    root_ st' = root_ st ∧
    (∀ w, clients_ st' !! w = clients_ st !! w ∨
          (is_Some (clients_ st' !! w) ∧
           ∃ r p tl,
             query_tree srv (calls st ++ enumeration_calls (root_ st))
               (root_ st) = Some (r, p, tl) ∧ w ∈ tl)) ∧
    ((out = Returned true ∧ cs = handshake_calls (root_ st)
      ∧ clients_ st' = clients_ st)
     ∨ (out = Aborted ∧ CallUngrabServer ∉ cs)
     ∨ (out = Returned false ∧
        ∃ cs', cs = enumeration_calls (root_ st) ++ cs'
                    ++ [CallFree; CallUngrabServer] ∧
               Forall (λ c, holds_server c = false) cs')).
Proof.
  unfold startup, XSync, enumeration_calls, handshake_calls,
    substructure_mask.
  run_m. norm_calls.
  match goal with |- context [for_each ?errs invoke_error_handler ?s1] =>
    destruct (errors_to_OnWMDetected errs s1 eq_refl)
      as (out & s' & E & O & R & C & L) end.
  rewrite E. cbn in R, C, L. destruct O as [->| ->].
  - destruct (wm_detected_ s') eqn:Hflag; cbn.
    + eexists _, _, _. split; [done|]. cbn. rewrite L, R, C.
      split_and!; [done|done|by left|by left].
    + rewrite R, L. norm_calls.
      destruct (query_tree srv _ _) as [[[r p] tl]|] eqn:Htree; cbn.
      * destruct (bool_decide (r = root_ st)); cbn.
        -- match goal with |- context [for_each tl _ ?s2] =>
             destruct (startup_loop_extends tl s2)
               as (out2 & m2 & cs2 & ls2 & E2 & O2 & F2 & R2) end.
           rewrite E2. unfold extend. cbn. norm_calls. cbn in R2.
           assert (∀ w, m2 !! w = clients_ st !! w ∨
                        (is_Some (m2 !! w) ∧
                         ∃ r0 p0 tl0, Some (r, p, tl) = Some (r0, p0, tl0)
                                      ∧ w ∈ tl0)) as Hreg.
           { intros w. destruct (R2 w) as [->|[Hin Hsome]].
             - left. by rewrite C.
             - right. split; [done|]. by exists r, p, tl. }
           destruct O2 as [->| ->].
           ++ eexists _, _, _. split; [done|]. cbn. norm_calls.
              split_and!; [done|done|done|]. right; right. split; [done|].
              by exists cs2.
           ++ eexists _, _, _. split; [done|]. cbn.
              split_and!; [done|done|done|]. right; left. split; [done|].
              rewrite !elem_of_cons. intros Hin.
              repeat (destruct Hin as [?|Hin]; [done|]).
              rewrite Forall_forall in F2. by specialize (F2 _ Hin).
        -- eexists _, _, _. split; [done|]. cbn. rewrite C.
           split_and!; [done|done|by left|]. right; left. split; [done|].
           rewrite !elem_of_cons, elem_of_nil. intros Hin.
           by repeat (destruct Hin as [?|Hin]; [done|]).
      * eexists _, _, _. split; [done|]. cbn. rewrite C.
        split_and!; [done|done|by left|]. right; left. split; [done|].
        rewrite !elem_of_cons, elem_of_nil. intros Hin.
        by repeat (destruct Hin as [?|Hin]; [done|]).
  - eexists _, _, _. split; [done|]. rewrite L, R, C.
    split_and!; [done|done|by left|]. right; left. split; [done|].
    rewrite !elem_of_cons, elem_of_nil. intros Hin.
    by repeat (destruct Hin as [?|Hin]; [done|]).
Qed.

Lemma Run_detected (events : list XEvent) (st : State) (e : XErrorEvent) :
  sync_errors srv (calls st ++ handshake_calls (root_ st)) = [e] →
  error_code e = BadAccess →
  Run srv events st = (Returned tt, detected st).
Proof.
  intros Herrs Hcode. rewrite Run_startup.
  by rewrite (bind_returned _ _ _ _ _ (startup_detected st e Herrs Hcode)).
Qed.

(** With no error reported during the handshake, [Run] goes into the
    framing loop whatever the flag was before, and never returns. *)
Lemma Run_undetected (events : list XEvent) (st : State) :
  sync_errors srv (calls st ++ handshake_calls (root_ st)) = [] →
  ∃ out m cs ls,
    Run srv events st = (out, extend (grabbed st) m cs ls) ∧
    (out = Blocked ∨ out = Aborted).
Proof.
  intros Herrs. rewrite Run_startup. unfold mbind at 1, M_bind.
  rewrite (startup_undetected st Herrs).
  destruct (query_tree srv _ _) as [[[r p] tl]|];
    [|eexists _, _, _, _; split; [done|by right]].
  case_bool_decide; [|eexists _, _, _, _; split; [done|by right]].
  destruct (startup_loop_extends tl (grabbed st))
    as (out1 & m1 & cs1 & ls1 & E1 & [->| ->] & _).
  - rewrite (bind_returned _ _ _ _ _ E1). run_m.
    match goal with |- context [event_loop srv events ?s1] =>
      assert (s1 = extend (grabbed st) m1 (cs1 ++ [CallFree; CallUngrabServer])
                     ls1) as ->
        by (unfold extend; cbn; by rewrite ?app_nil_r, <- ?app_assoc) end.
    destruct (event_loop_extends events
                (extend (grabbed st) m1 (cs1 ++ [CallFree; CallUngrabServer])
                   ls1))
      as (out2 & m2 & cs2 & ls2 & E2 & O2 & _).
    rewrite E2, extend_extend. by eexists _, _, _, _.
  - rewrite (bind_aborted _ _ _ _ E1). eexists _, _, _, _.
    split; [done|by right].
Qed.

(** *** The framing loop on a quiet display *)

Lemma count_calls_app (p : XCall -> bool) (l1 l2 : list XCall) :
  count_calls p (l1 ++ l2) = (count_calls p l1 + count_calls p l2)%nat.
Proof. induction l1 as [|c l1 IH]; cbn; [done|]. rewrite IH. lia. Qed.

Lemma count_reparents_framing (root x w : Window) (a : XWindowAttributes)
    (frame : Window) :
  count_calls (reparents w) (framing_calls root x a frame)
    = if decide (x = w) then 1%nat else 0%nat.
Proof. cbn. by repeat case_bool_decide; case_decide. Qed.

(** When every enumerated window can be queried and none is listed twice,
    the loop runs to its end; a window that is viewable and not
    override-redirect is reparented once and registered with the frame it
    was put into, and the others are left alone. *)
Lemma startup_loop_frames (tl : list Window) (st : State) :
  NoDup tl →
  (∀ h x, x ∈ tl → is_Some (window_attributes srv h x)) →
  ∃ m cs ls,
    for_each tl (λ w, Frame srv w true) st
      = (Returned tt, extend st m cs ls) ∧
    (∀ w, w ∉ tl →
       m !! w = clients_ st !! w ∧ count_calls (reparents w) cs = 0%nat) ∧
    (∀ w, w ∈ tl →
       (∀ h a, window_attributes srv h w = Some a →
               override_redirect a = 0 ∧ map_state a = IsViewable) →
       count_calls (reparents w) cs = 1%nat ∧
       ∃ frame, m !! w = Some frame ∧ CallReparentWindow w frame 0 0 ∈ cs) ∧
    (∀ w, w ∈ tl →
       (∀ h a, window_attributes srv h w = Some a →
               override_redirect a ≠ 0 ∨ map_state a ≠ IsViewable) →
       count_calls (reparents w) cs = 0%nat ∧ m !! w = clients_ st !! w).
Proof.
  revert st. induction tl as [|x tl IH]; intros st Hnodup Hexist.
  - exists (clients_ st), [], []. cbn. rewrite extend_nothing.
    split_and!; [done|done|intros w Hw..]; by apply elem_of_nil in Hw.
  - apply NoDup_cons in Hnodup as [Hx Hnodup].
    destruct (Hexist (calls st ++ [CallGetWindowAttributes x]) x)
      as [a Hattrs]; [by left|].
    assert (∃ m1 cs1 ls1,
      Frame srv x true st = (Returned tt, extend st m1 cs1 ls1) ∧
      (∀ w, w ≠ x → m1 !! w = clients_ st !! w ∧
                     count_calls (reparents w) cs1 = 0%nat) ∧
      ((override_redirect a = 0 ∧ map_state a = IsViewable) →
       count_calls (reparents x) cs1 = 1%nat ∧
       ∃ frame, m1 !! x = Some frame ∧ CallReparentWindow x frame 0 0 ∈ cs1) ∧
      ((override_redirect a ≠ 0 ∨ map_state a ≠ IsViewable) →
       count_calls (reparents x) cs1 = 0%nat ∧ m1 !! x = clients_ st !! x))
      as (m1 & cs1 & ls1 & E1 & Hother & Hframed & Hskipped).
    { destruct (decide (override_redirect a = 0 ∧ map_state a = IsViewable))
        as [Hok|Hex].
      - eexists _, _, _. split; [by apply (Frame_framed srv x true st a); [|right]|].
        split_and!.
        + intros w Hw. rewrite lookup_insert_ne by done.
          rewrite count_reparents_framing. by case_decide.
        + intros _. rewrite count_reparents_framing, decide_True by done.
          split; [done|]. eexists. rewrite lookup_insert_eq. split; [done|].
          unfold framing_calls. rewrite !elem_of_cons. tauto.
        + intros [?|?]; by destruct Hok.
      - assert (override_redirect a ≠ 0 ∨ map_state a ≠ IsViewable) as Hex'.
        { destruct (decide (override_redirect a = 0)); [|by left].
          right. intros ?. by apply Hex. }
        eexists _, _, _. split; [by apply (Frame_excluded srv x st a)|].
        split_and!; [done|done|done]. }
    destruct (IH (extend st m1 cs1 ls1) Hnodup)
      as (m2 & cs2 & ls2 & E2 & Hout2 & Hframed2 & Hskipped2).
    { intros h y Hy. apply Hexist. by right. }
    cbn [for_each]. rewrite (bind_returned _ _ _ _ _ E1), E2, extend_extend.
    eexists _, _, _. split; [done|]. cbn in Hout2, Hskipped2. split_and!.
    + intros w Hw. apply not_elem_of_cons in Hw as [Hwx Hw].
      destruct (Hout2 w Hw) as [-> Hc2]. destruct (Hother w Hwx) as [-> Hc1].
      by rewrite count_calls_app, Hc1, Hc2.
    + intros w Hw Hok. rewrite count_calls_app.
      destruct (decide (w = x)) as [->|Hwx].
      * destruct (Hframed (Hok _ _ Hattrs)) as (Hc1 & frame & Hm1 & Hin1).
        destruct (Hout2 x Hx) as [Hm2 Hc2]. rewrite Hc1, Hc2.
        split; [done|]. exists frame. rewrite Hm2, elem_of_app. by split; [|left].
      * apply elem_of_cons in Hw as [?|Hw]; [done|].
        destruct (Hframed2 w Hw Hok) as (Hc2 & frame & Hm2 & Hin2).
        destruct (Hother w Hwx) as [_ Hc1]. rewrite Hc1, Hc2.
        split; [done|]. exists frame. rewrite elem_of_app. by split; [|right].
    + intros w Hw Hex. rewrite count_calls_app.
      destruct (decide (w = x)) as [->|Hwx].
      * destruct (Hskipped (Hex _ _ Hattrs)) as (Hc1 & Hm1).
        destruct (Hout2 x Hx) as [Hm2 Hc2]. by rewrite Hc1, Hc2, Hm2.
      * apply elem_of_cons in Hw as [?|Hw]; [done|].
        destruct (Hskipped2 w Hw Hex) as (Hc2 & Hm2).
        destruct (Hother w Hwx) as [Hm1 Hc1]. by rewrite Hc1, Hc2, Hm2.
Qed.

End RunLemmas.

(** ** Detection of a competing manager *)

(** C1: when the request to select substructure events on the root is
    answered with a [BadAccess] error, [Run] returns: its Xlib calls are the
    installation of the detection handler, the [XSelectInput] on the root and
    the [XSync], in this order and nothing else, so neither [XQueryTree] nor
    any framing call nor [XNextEvent] is made; the registry is untouched; the
    flag is true; one ERROR record reports the other manager; the outcome is
    a return, not an abort.  The flag is reset first: with no error at the
    [XSync], [Run] goes on to the framing loop and ends with the flag false
    even when the flag was true on entry. *)
Theorem Run_stops_when_another_manager_is_detected
    (srv : XServer) (events : list XEvent) (st : State) :
  (∀ e : XErrorEvent,
     sync_errors srv (calls st ++ handshake_calls (root_ st)) = [e] →
     error_code e = BadAccess →
     let '(out, st') := Run srv events st in
     out = Returned tt ∧
     calls st' =
       calls st ++
       [CallSetErrorHandler addr_OnWMDetected;
        CallSelectInput (root_ st)
          (Z.lor SubstructureRedirectMask SubstructureNotifyMask);
        CallSync false] ∧
     clients_ st' = clients_ st ∧
     wm_detected_ st' = true ∧
     log st' =
       log st ++
       [{| severity := ERROR;
           text := "Detected another window manager on display";
           args := [] |}]) ∧
  (sync_errors srv (calls st ++ handshake_calls (root_ st)) = [] →
   let '(out, st') := Run srv events st in
   out ≠ Returned tt ∧ wm_detected_ st' = false ∧
   CallGrabServer ∈ calls st').
Proof.
  split.
  - intros e Herrs Hcode. by rewrite (Run_detected srv events st e Herrs Hcode).
  - intros Herrs.
    destruct (Run_undetected srv events st Herrs)
      as (out & m & cs & ls & -> & O).
    split_and!; [by destruct O as [->| ->]|done|].
    cbn. unfold enumeration_calls. rewrite !elem_of_app, !elem_of_cons.
    tauto.
Qed.

Lemma Run_stops_when_another_manager_is_detected_witness :
  (let '(out, st') := Run busy_server [] example_state in
   out = Returned tt ∧
   calls st' =
     calls example_state ++
     [CallSetErrorHandler addr_OnWMDetected;
      CallSelectInput (root_ example_state)
        (Z.lor SubstructureRedirectMask SubstructureNotifyMask);
      CallSync false] ∧
   clients_ st' = clients_ example_state ∧
   wm_detected_ st' = true ∧
   log st' =
     log example_state ++
     [{| severity := ERROR;
         text := "Detected another window manager on display";
         args := [] |}]) ∧
  (let '(out, st') := Run example_server [] (set_wm_detected true example_state) in
   out ≠ Returned tt ∧ wm_detected_ st' = false ∧
   CallGrabServer ∈ calls st').
Proof.
  split.
  - apply (proj1 (Run_stops_when_another_manager_is_detected
                    busy_server [] example_state)
             {| error_code := BadAccess; request_code := 2 |});
      reflexivity.
  - apply (proj2 (Run_stops_when_another_manager_is_detected
                    example_server [] (set_wm_detected true example_state))).
    reflexivity.
Defined.

(** ** The server hold *)

Lemma hold_released_by_later_ungrab (l1 l2 : list XCall) :
  Forall (λ c, holds_server c = false) l2 →
  hold_released (l1 ++ CallUngrabServer :: l2).
Proof.
  intros Hl2 i Hi. exists (length l1). split.
  - destruct (decide (i < length l1)%nat) as [|Hge]; [done|].
    rewrite lookup_app_r in Hi by lia.
    destruct (i - length l1)%nat as [|k] eqn:Hk; cbn in Hi; [done|].
    apply list_elem_of_lookup_2 in Hi.
    rewrite Forall_forall in Hl2. by specialize (Hl2 _ Hi).
  - by rewrite list_lookup_middle.
Qed.

(** C6, as the code has it: the hold is given back exactly on the paths on
    which start-up runs to its end.  If [Run] reaches the main loop (with no
    event to deliver it blocks in [XNextEvent]), then whatever events follow,
    every [XGrabServer] of the session is followed by an [XUngrabServer].
    If start-up is cut short by a failed [CHECK], the session is the same
    whatever events were to follow and contains no [XUngrabServer]. *)
Theorem server_hold_released_when_startup_completes
    (srv : XServer) (events : list XEvent) (root : Window) :
  let st := WindowManager_ctor root in
  ((Run srv [] st).1 = Blocked →
   hold_released (calls (Run srv events st).2)) ∧
  ((Run srv [] st).1 = Aborted →
   Run srv events st = Run srv [] st ∧
   CallUngrabServer ∉ calls (Run srv events st).2).
Proof.
  intros st. rewrite !Run_startup. unfold mbind, M_bind.
  destruct (startup_cases srv st)
    as (out & st' & cs & -> & Hcalls & _ & _ & Hcase).
  cbn in Hcalls.
  destruct Hcase as [(-> & _)|[(-> & Hno)|(-> & cs' & -> & Hcs')]];
    cbn -[event_loop].
  - by split.
  - split; [done|]. intros _. split; [done|]. by rewrite Hcalls.
  - destruct (event_loop_extends srv [] st')
      as (out0 & m0 & cs0 & ls0 & E0 & _ & _ & Hblocked).
    destruct (Hblocked eq_refl) as (-> & _ & _). rewrite E0. cbn.
    split; [intros _|done].
    destruct (event_loop_extends srv events st')
      as (out1 & m1 & cs1 & ls1 & -> & _ & Hcs1 & _).
    cbn. rewrite Hcalls, <- !app_assoc. cbn [app].
    change (CallFree :: CallUngrabServer :: cs1)
      with ([CallFree] ++ CallUngrabServer :: cs1).
    rewrite !app_assoc.
    by apply hold_released_by_later_ungrab.
Qed.

Lemma server_hold_released_when_startup_completes_witness :
  let st := WindowManager_ctor 1 in
  hold_released
    (calls (Run example_server [MapRequest {| mr_window := 14 |}] st).2) ∧
  Run treeless_server [MapRequest {| mr_window := 14 |}] st
    = Run treeless_server [] st ∧
  CallUngrabServer
    ∉ calls (Run treeless_server [MapRequest {| mr_window := 14 |}] st).2.
Proof.
  split.
  - apply (proj1 (server_hold_released_when_startup_completes
                    example_server [MapRequest {| mr_window := 14 |}] 1)).
    reflexivity.
  - apply (proj2 (server_hold_released_when_startup_completes
                    treeless_server [MapRequest {| mr_window := 14 |}] 1)).
    reflexivity.
Defined.

(** C6 as stated fails: with a failing [XQueryTree], and likewise with a
    window whose attributes cannot be read, [Run] takes the hold and the
    process is terminated by a [CHECK] before [XUngrabServer] is called. *)
Lemma server_hold_kept_on_failed_startup :
  ((Run treeless_server [] example_state).1 = Aborted ∧
   CallGrabServer ∈ calls (Run treeless_server [] example_state).2 ∧
   (CallUngrabServer ∉ calls (Run treeless_server [] example_state).2) ∧
   (¬ hold_released (calls (Run treeless_server [] example_state).2))) ∧
  ((Run vanishing_server [] example_state).1 = Aborted ∧
   CallGrabServer ∈ calls (Run vanishing_server [] example_state).2 ∧
   (CallUngrabServer ∉ calls (Run vanishing_server [] example_state).2) ∧
   (¬ hold_released (calls (Run vanishing_server [] example_state).2))).
Proof.
  assert (∀ l : list XCall, l !! 4%nat = Some CallGrabServer →
            CallUngrabServer ∉ l → ¬ hold_released l) as Hkept.
  { intros l Hgrab Hno Hrel. destruct (Hrel _ Hgrab) as (j & _ & Hj).
    by apply list_elem_of_lookup_2 in Hj. }
  split.
  - assert (calls (Run treeless_server [] example_state).2
            = enumeration_calls 1) as -> by reflexivity.
    assert (CallUngrabServer ∉ enumeration_calls 1) as Hno.
    { cbn. rewrite !elem_of_cons, elem_of_nil. intros Hin.
      by repeat (destruct Hin as [?|Hin]; [done|]). }
    split_and!; [done| |done|by apply Hkept].
    cbn. rewrite !elem_of_cons. tauto.
  - assert (calls (Run vanishing_server [] example_state).2
            = enumeration_calls 1 ++ [CallGetWindowAttributes 11])
      as -> by reflexivity.
    assert (CallUngrabServer
              ∉ enumeration_calls 1 ++ [CallGetWindowAttributes 11]) as Hno.
    { cbn. rewrite !elem_of_cons, elem_of_nil. intros Hin.
      by repeat (destruct Hin as [?|Hin]; [done|]). }
    split_and!; [done| |done|by apply Hkept].
    cbn. rewrite !elem_of_cons. tauto.
Qed.

(** ** A window that cannot be queried *)

Lemma Frame_aborts_when_query_fails_witness :
  let '(out, st') := Frame vanishing_server 11 true example_state in
  out = Aborted ∧
  calls st' = calls example_state ++ [CallGetWindowAttributes 11] ∧
  clients_ st' = clients_ example_state ∧
  log st' =
    log example_state ++
    [{| severity := FATAL;
        text := "Check failed: XGetWindowAttributes(display_, w, &x_window_attrs)";
        args := [] |}].
Proof.
  apply (Frame_aborts_when_query_fails vanishing_server 11 true example_state).
  reflexivity.
Defined.

(** C4 as stated fails: for a window whose attribute query fails, [Frame]
    does not return, and the failure is not silent: the outcome is an abort
    of the process and a FATAL record is written. *)
Lemma Frame_query_failure_is_fatal :
  window_attributes vanishing_server
    (calls example_state ++ [CallGetWindowAttributes 11]) 11 = None ∧
  (Frame vanishing_server 11 true example_state).1 ≠ Returned tt ∧
  (Frame vanishing_server 11 true example_state).1 = Aborted ∧
  severity <$> log (Frame vanishing_server 11 true example_state).2 = [FATAL].
Proof. by split_and!. Qed.

(** ** Re-framing *)

Lemma map_request_reframes_registered_window_witness :
  let e := {| mr_window := 11 |} in
  let st := framed_state in
  let frame := 1002 in
  let '(out, st') := OnMapRequest example_server e st in
  (out = Returned tt ∧
   calls st' =
     calls st ++
     [CallGetWindowAttributes 11;
      create_frame_call (root_ st) viewable_attributes;
      CallSelectInput frame substructure_mask; CallAddToSaveSet 11;
      CallReparentWindow 11 frame 0 0; CallMapWindow frame;
      CallMapWindow 11] ∧
   clients_ st' = <[11 := frame]> (clients_ st) ∧
   clients_ st' !! 11 = Some frame) ∧
  ∃ cs, calls st' = calls st ++ cs ∧
        (∀ f, CallUnmapWindow f ∉ cs) ∧
        (∀ f, CallDestroyWindow f ∉ cs).
Proof.
  intros e st frame.
  exact (map_request_reframes_registered_window example_server e st 1008
           eq_refl).
Defined.

(** C9 as stated fails in two ways.  A map-request for the registered window
    11 whose attribute query fails ends in an abort: the window is not
    mapped and its entry still names the old frame 1008.  And when the query
    succeeds, the client, which sits in frame 1008, is reparented into the
    new frame 1002, that is, away from the frame registered before. *)
Lemma map_request_of_registered_window_can_abort :
  clients_ framed_state !! 11 = Some 1008 ∧
  (let '(out, st') :=
     OnMapRequest vanishing_server {| mr_window := 11 |} framed_state in
   out = Aborted ∧
   (CallMapWindow 11 ∉ calls st') ∧
   clients_ st' !! 11 = Some 1008) ∧
  (let '(out, st') :=
     OnMapRequest example_server {| mr_window := 11 |} framed_state in
   CallReparentWindow 11 1002 0 0 ∈ calls st' ∧ 1002 ≠ 1008).
Proof.
  split_and!; [reflexivity| |].
  - assert (OnMapRequest vanishing_server {| mr_window := 11 |} framed_state
            = (Aborted,
               extend framed_state (clients_ framed_state)
                 [CallGetWindowAttributes 11]
                 [{| severity := FATAL;
                     text := "Check failed: XGetWindowAttributes(display_, w, &x_window_attrs)";
                     args := [] |}])) as -> by reflexivity.
    split_and!; [done| |done].
    cbn. by intros ?%list_elem_of_singleton.
  - assert (calls (OnMapRequest example_server {| mr_window := 11 |}
                     framed_state).2
            = framing_calls 1 11 viewable_attributes 1002
              ++ [CallMapWindow 11]) as Hcalls by reflexivity.
    destruct (OnMapRequest example_server _ _) as [out st']. cbn in Hcalls.
    rewrite Hcalls. split; [|done].
    rewrite !elem_of_cons. tauto.
Qed.

(** ** Windows that exist before the manager *)

Section StartupLoop.

Variable srv : XServer.

Lemma for_each_app {A} (l1 l2 : list A) (body : A -> M unit) (st : State) :
  for_each (l1 ++ l2) body st = (for_each l1 body;; for_each l2 body) st.
Proof.
  revert st. induction l1 as [|x l1 IH]; intros st; [done|].
  cbn [app for_each]. unfold mbind, M_bind in *.
  destruct (body x st) as [[[]| |] st1]; [|done..]. apply IH.
Qed.

(** What [Frame x] does to another window [w], or to [w] itself when [w] is
    never found manageable: nothing. *)
Lemma Frame_passes_by (x : Window) (st : State) :
  ∃ out m cs ls,
    Frame srv x true st = (out, extend st m cs ls) ∧
    (out = Returned tt ∨ out = Aborted) ∧
    (is_Some (window_attributes srv
                (calls st ++ [CallGetWindowAttributes x]) x) →
     out = Returned tt) ∧
    (∀ w,
       w ≠ x ∨
       (∀ h a, window_attributes srv h w = Some a →
               override_redirect a ≠ 0 ∨ map_state a ≠ IsViewable) →
       m !! w = clients_ st !! w ∧ count_calls (reparents w) cs = 0%nat).
Proof.
  destruct (window_attributes srv (calls st ++ [CallGetWindowAttributes x]) x)
    as [a|] eqn:Hattrs.
  - destruct (decide (override_redirect a = 0 ∧ map_state a = IsViewable))
      as [Hok|Hex].
    + eexists _, _, _, _.
      split; [by apply (Frame_framed srv x true st a); [|right]|].
      split_and!; [by left|done|].
      intros w Hw.
      assert (w ≠ x) as Hne.
      { destruct Hw as [Hw|Hw]; [done|]. intros ->.
        by destruct (Hw _ _ Hattrs) as [?|?]; destruct Hok. }
      rewrite lookup_insert_ne by done.
      rewrite count_reparents_framing. by case_decide.
    + assert (override_redirect a ≠ 0 ∨ map_state a ≠ IsViewable) as Hex'.
      { destruct (decide (override_redirect a = 0)); [|by left].
        right. intros ?. by apply Hex. }
      eexists _, _, _, _.
      split; [by apply (Frame_excluded srv x st a)|].
      by split_and!; [left| |].
  - eexists _, _, _, _. split; [by apply Frame_query_failed|].
    split_and!; [by right|by intros [? ?]|done].
Qed.

Lemma startup_loop_passes_by (tl : list Window) (st : State) :
  ∃ out m cs ls,
    for_each tl (λ w, Frame srv w true) st = (out, extend st m cs ls) ∧
    (out = Returned tt ∨ out = Aborted) ∧
    ((∀ h x, x ∈ tl → is_Some (window_attributes srv h x)) →
     out = Returned tt) ∧
    (∀ w,
       w ∉ tl ∨
       (∀ h a, window_attributes srv h w = Some a →
               override_redirect a ≠ 0 ∨ map_state a ≠ IsViewable) →
       m !! w = clients_ st !! w ∧ count_calls (reparents w) cs = 0%nat).
Proof.
  revert st. induction tl as [|x tl IH]; intros st.
  - exists (Returned tt), (clients_ st), [], []. cbn.
    rewrite extend_nothing. by split_and!; [|left| |].
  - destruct (Frame_passes_by x st)
      as (out1 & m1 & cs1 & ls1 & E1 & O1 & R1 & P1).
    assert (∀ w,
      w ∉ x :: tl ∨
      (∀ h a, window_attributes srv h w = Some a →
              override_redirect a ≠ 0 ∨ map_state a ≠ IsViewable) →
      (w ≠ x ∨
       (∀ h a, window_attributes srv h w = Some a →
               override_redirect a ≠ 0 ∨ map_state a ≠ IsViewable)) ∧
      (w ∉ tl ∨
       (∀ h a, window_attributes srv h w = Some a →
               override_redirect a ≠ 0 ∨ map_state a ≠ IsViewable)))
      as Hsplit.
    { intros w [Hw|Hw]; [|by split; right].
      apply not_elem_of_cons in Hw as [? ?]. by split; left. }
    cbn [for_each]. destruct O1 as [->| ->].
    + rewrite (bind_returned _ _ _ _ _ E1).
      destruct (IH (extend st m1 cs1 ls1))
        as (out2 & m2 & cs2 & ls2 & E2 & O2 & R2 & P2).
      rewrite E2, extend_extend. eexists _, _, _, _. split; [done|].
      split_and!; [done| |].
      * intros Hall. apply R2. intros h y Hy. apply Hall. by right.
      * intros w Hw. destruct (Hsplit w Hw) as [Hw1 Hw2].
        destruct (P1 w Hw1) as [Hm1 Hc1]. destruct (P2 w Hw2) as [Hm2 Hc2].
        cbn in Hm2. by rewrite Hm2, Hm1, count_calls_app, Hc1, Hc2.
    + rewrite (bind_aborted _ _ _ _ E1). eexists _, _, _, _. split; [done|].
      split_and!; [by right| |].
      * intros Hall. apply R1, Hall. by left.
      * intros w Hw. destruct (Hsplit w Hw) as [Hw1 _]. by apply P1.
Qed.

(** [Run] on a display without another manager, from the outcome of its
    framing loop. *)
Lemma Run_enumerated (st : State) (parent : Window) (tl : list Window)
    (out : Outcome unit) m cs ls :
  sync_errors srv (calls st ++ handshake_calls (root_ st)) = [] →
  query_tree srv (calls st ++ enumeration_calls (root_ st)) (root_ st)
    = Some (root_ st, parent, tl) →
  for_each tl (λ w, Frame srv w true) (grabbed st)
    = (out, extend (grabbed st) m cs ls) →
  out = Returned tt ∨ out = Aborted →
  Run srv [] st =
    match out with
    | Returned _ =>
        (Blocked,
         extend (grabbed st) m
           (cs ++ [CallFree; CallUngrabServer; CallNextEvent]) ls)
    | _ => (Aborted, extend (grabbed st) m cs ls)
    end.
Proof.
  intros Herrs Htree E O. rewrite Run_startup. unfold mbind at 1, M_bind.
  rewrite (startup_undetected srv st Herrs), Htree.
  rewrite bool_decide_eq_true_2 by done.
  destruct O as [->| ->].
  - rewrite (bind_returned _ _ _ _ _ E). unfold extend. run_m. run_m.
    by rewrite <- !app_assoc.
  - by rewrite (bind_aborted _ _ _ _ E).
Qed.

End StartupLoop.

(** C2, as the code has it.  Called with the pre-existing flag, [Frame]
    returns for a window that is override-redirect or not viewable after its
    attribute query alone: no frame is created and the registry is as
    before; such a window is never reparented or registered during start-up,
    whatever happens to the other enumerated windows.  A viewable,
    non-override-redirect window that is enumerated once is framed exactly
    once, provided the windows enumerated before it can be queried: by the
    time [Run] stops, the session has the six calls of one framing of it, in
    a row, with the frame that [XCreateSimpleWindow] returned, no other
    [XReparentWindow] of it, and the registry maps it to that frame.  But
    when an enumerated window cannot be queried, the [CHECK] in [Frame]
    terminates the process, and no window enumerated after it is framed. *)
Theorem preexisting_windows_are_framed_once_unless_startup_aborts
    (srv : XServer) :
  (∀ (w : Window) (st : State) (a : XWindowAttributes),
     window_attributes srv (calls st ++ [CallGetWindowAttributes w]) w
       = Some a →
     override_redirect a ≠ 0 ∨ map_state a ≠ IsViewable →
     let '(out, st') := Frame srv w true st in
     out = Returned tt ∧
     calls st' = calls st ++ [CallGetWindowAttributes w] ∧
     clients_ st' = clients_ st) ∧
  (∀ (root parent : Window) (tl : list Window) (w : Window),
     sync_errors srv (handshake_calls root) = [] →
     query_tree srv (enumeration_calls root) root = Some (root, parent, tl) →
     (∀ h a, window_attributes srv h w = Some a →
             override_redirect a ≠ 0 ∨ map_state a ≠ IsViewable) →
     let st' := (Run srv [] (WindowManager_ctor root)).2 in
     count_calls (reparents w) (calls st') = 0%nat ∧
     clients_ st' !! w = None) ∧
  (∀ (root parent : Window) (before : list Window) (w : Window)
     (after : list Window),
     sync_errors srv (handshake_calls root) = [] →
     query_tree srv (enumeration_calls root) root
       = Some (root, parent, before ++ w :: after) →
     w ∉ before → w ∉ after →
     (∀ h x, x ∈ before → is_Some (window_attributes srv h x)) →
     (∀ h, ∃ a, window_attributes srv h w = Some a ∧
                override_redirect a = 0 ∧ map_state a = IsViewable) →
     let st' := (Run srv [] (WindowManager_ctor root)).2 in
     ∃ (earlier later : list XCall) (a : XWindowAttributes) (frame : Window),
       calls st' = earlier ++ framing_calls root w a frame ++ later ∧
       window_attributes srv (earlier ++ [CallGetWindowAttributes w]) w
         = Some a ∧
       frame =
         new_window srv
           (earlier ++ [CallGetWindowAttributes w; create_frame_call root a]) ∧
       count_calls (reparents w) earlier = 0%nat ∧
       count_calls (reparents w) later = 0%nat ∧
       count_calls (reparents w) (calls st') = 1%nat ∧
       clients_ st' !! w = Some frame) ∧
  (∀ (root parent : Window) (before : list Window) (x : Window)
     (after : list Window),
     sync_errors srv (handshake_calls root) = [] →
     query_tree srv (enumeration_calls root) root
       = Some (root, parent, before ++ x :: after) →
     (∀ h y, y ∈ before → is_Some (window_attributes srv h y)) →
     (∀ h, window_attributes srv h x = None) →
     let '(out, st') := Run srv [] (WindowManager_ctor root) in
     out = Aborted ∧
     ∀ w, w ∉ before →
       count_calls (reparents w) (calls st') = 0%nat ∧
       clients_ st' !! w = None).
Proof.
  split_and!.
  - intros w st a Hattrs Hex. by rewrite (Frame_excluded srv w st a Hattrs Hex).
  - intros root parent tl w Herrs Htree Hex st'.
    destruct (startup_loop_passes_by srv tl (grabbed (WindowManager_ctor root)))
      as (out & m & cs & ls & E & O & _ & P).
    destruct (P w (or_intror Hex)) as [Hm Hc].
    unfold st'.
    rewrite (Run_enumerated srv (WindowManager_ctor root) parent tl out m cs ls
               Herrs Htree E O).
    destruct O as [->| ->]; cbn [snd extend calls clients_ grabbed];
      rewrite ?count_calls_app, Hc, Hm; by cbn.
  - intros root parent before w after Herrs Htree Hbefore Hafter Hexist Hok st'.
    set (st0 := grabbed (WindowManager_ctor root)).
    destruct (startup_loop_passes_by srv before st0)
      as (out1 & m1 & cs1 & ls1 & E1 & _ & R1 & P1).
    rewrite (R1 Hexist) in E1. clear R1.
    destruct (P1 w (or_introl Hbefore)) as [Hm1 Hc1].
    set (st1 := extend st0 m1 cs1 ls1) in *.
    destruct (Hok (calls st1 ++ [CallGetWindowAttributes w]))
      as (a & Hattrs & Hor & Hms).
    pose proof (Frame_framed srv w true st1 a Hattrs (or_intror (conj Hor Hms)))
      as E2. cbv zeta in E2.
    set (frame := new_window srv
                    (calls st1 ++ [CallGetWindowAttributes w;
                                   create_frame_call (root_ st1) a])) in *.
    set (st2 := extend st1 (<[w := frame]> (clients_ st1))
                  (framing_calls (root_ st1) w a frame)
                  [info "framed window " [w; frame]]) in *.
    destruct (startup_loop_passes_by srv after st2)
      as (out3 & m3 & cs3 & ls3 & E3 & O3 & _ & P3).
    destruct (P3 w (or_introl Hafter)) as [Hm3 Hc3].
    assert (for_each (before ++ w :: after) (λ w, Frame srv w true) st0
            = (out3, extend st0 m3
                       (cs1 ++ framing_calls root w a frame ++ cs3)
                       (ls1 ++ [info "framed window " [w; frame]] ++ ls3)))
      as E.
    { rewrite for_each_app, (bind_returned _ _ _ _ _ E1). cbn [for_each].
      rewrite (bind_returned _ _ _ _ _ E2), E3.
      unfold st2, st1. by rewrite !extend_extend. }
    unfold st'.
    rewrite (Run_enumerated srv (WindowManager_ctor root) parent _ out3 _ _ _
               Herrs Htree E O3).
    assert (m3 !! w = Some frame) as Hreg.
    { rewrite Hm3. unfold st2. cbn. by rewrite lookup_insert_eq. }
    exists (enumeration_calls root ++ cs1),
      (cs3 ++ match out3 with
              | Returned _ => [CallFree; CallUngrabServer; CallNextEvent]
              | _ => []
              end), a, frame.
    split_and!.
    + destruct O3 as [->| ->]; cbn [snd extend calls grabbed];
        cbn [WindowManager_ctor calls root_ app];
        by rewrite ?app_nil_r, <- ?app_assoc.
    + done.
    + done.
    + rewrite count_calls_app, Hc1. done.
    + rewrite count_calls_app, Hc3. by destruct O3 as [->| ->].
    + destruct O3 as [->| ->]; cbn [snd extend calls grabbed];
        cbn [WindowManager_ctor calls root_ app];
        rewrite !count_calls_app, Hc1, Hc3, count_reparents_framing,
          decide_True by done; done.
    + by destruct O3 as [->| ->].
  - intros root parent before x after Herrs Htree Hexist Hgone.
    set (st0 := grabbed (WindowManager_ctor root)).
    destruct (startup_loop_passes_by srv before st0)
      as (out1 & m1 & cs1 & ls1 & E1 & _ & R1 & P1).
    rewrite (R1 Hexist) in E1. clear R1.
    pose proof (Frame_query_failed srv x true (extend st0 m1 cs1 ls1)
                  (Hgone _)) as E2.
    assert (for_each (before ++ x :: after) (λ w, Frame srv w true) st0
            = (Aborted,
               extend st0 m1 (cs1 ++ [CallGetWindowAttributes x])
                 (ls1 ++ [{| severity := FATAL;
                             text := "Check failed: XGetWindowAttributes(display_, w, &x_window_attrs)";
                             args := [] |}]))) as E.
    { rewrite for_each_app, (bind_returned _ _ _ _ _ E1). cbn [for_each].
      rewrite (bind_aborted _ _ _ _ E2). cbn [extend clients_].
      by rewrite extend_extend. }
    rewrite (Run_enumerated srv (WindowManager_ctor root) parent _ _ _ _ _
               Herrs Htree E (or_intror eq_refl)).
    split; [done|]. intros w Hw.
    destruct (P1 w (or_introl Hw)) as [Hm1 Hc1].
    cbn [snd extend calls clients_]. rewrite !count_calls_app, Hc1, Hm1.
    by cbn.
Qed.

Lemma preexisting_windows_are_framed_once_unless_startup_aborts_witness :
  (let '(out, st') := Frame example_server 12 true example_state in
   out = Returned tt ∧
   calls st' = calls example_state ++ [CallGetWindowAttributes 12] ∧
   clients_ st' = clients_ example_state) ∧
  (let st' := (Run gap_server [] (WindowManager_ctor 1)).2 in
   count_calls (reparents 14) (calls st') = 0%nat ∧
   clients_ st' !! 14 = None) ∧
  (let st' := (Run gap_server [] (WindowManager_ctor 1)).2 in
   ∃ (earlier later : list XCall) (a : XWindowAttributes) (frame : Window),
     calls st' = earlier ++ framing_calls 1 11 a frame ++ later ∧
     window_attributes gap_server (earlier ++ [CallGetWindowAttributes 11]) 11
       = Some a ∧
     frame =
       new_window gap_server
         (earlier ++ [CallGetWindowAttributes 11; create_frame_call 1 a]) ∧
     count_calls (reparents 11) earlier = 0%nat ∧
     count_calls (reparents 11) later = 0%nat ∧
     count_calls (reparents 11) (calls st') = 1%nat ∧
     clients_ st' !! 11 = Some frame) ∧
  (let '(out, st') := Run gap_server [] (WindowManager_ctor 1) in
   out = Aborted ∧
   ∀ w, w ∉ [11] →
     count_calls (reparents w) (calls st') = 0%nat ∧
     clients_ st' !! w = None).
Proof.
  pose proof (preexisting_windows_are_framed_once_unless_startup_aborts
                gap_server) as (_ & Hskipped & Honce & Haborts).
  split_and!.
  - apply (proj1 (preexisting_windows_are_framed_once_unless_startup_aborts
                    example_server) 12 example_state popup_attributes).
    + reflexivity.
    + left. discriminate.
  - apply (Hskipped 1 0 [11; 12; 13] 14 eq_refl eq_refl).
    intros h a [= <-]. right. discriminate.
  - apply (Honce 1 0 [] 11 [12; 13] eq_refl eq_refl).
    + by intros ?%elem_of_nil.
    + rewrite !elem_of_cons, elem_of_nil. intros [?|[?|[]]]; discriminate.
    + by intros h x ?%elem_of_nil.
    + intros h. exists viewable_attributes. by split_and!.
  - apply (Haborts 1 0 [11] 12 [13] eq_refl eq_refl).
    + intros h y ->%list_elem_of_singleton. by eexists.
    + reflexivity.
Defined.

(** C2 as stated fails: on a display where window 12, enumerated before
    window 13, cannot be queried, window 13 is viewable, not
    override-redirect and enumerated, and is never framed: [Run] is aborted
    at window 12 with one frame created, that of window 11. *)
Lemma enumerated_window_after_a_gap_is_not_framed :
  query_tree gap_server (enumeration_calls 1) 1 = Some (1, 0, [11; 12; 13]) ∧
  (∀ h, window_attributes gap_server h 13 = Some viewable_attributes) ∧
  override_redirect viewable_attributes = 0 ∧
  map_state viewable_attributes = IsViewable ∧
  (let '(out, st') := Run gap_server [] (WindowManager_ctor 1) in
   out = Aborted ∧
   count_calls (reparents 13) (calls st') = 0%nat ∧
   count_calls creates_window (calls st') = 1%nat ∧
   clients_ st' !! 13 = None).
Proof. by split_and!. Qed.

(** ** The registry has a single writer *)


(** * Further properties of the code *)

(** ** The handshake, for any errors the server reports *)

Section Handshake.

Variable srv : XServer.

Lemma errors_all_BadAccess (errs : list XErrorEvent) (s : State) :
  error_handler s = Some addr_OnWMDetected →
  Forall (λ e, error_code e = BadAccess) errs →
  for_each errs invoke_error_handler s =
    (Returned tt, match errs with [] => s | _ => set_wm_detected true s end).
Proof.
  intros Hh Hall. revert s Hh.
  induction Hall as [|e errs He Hall IH]; intros s Hh; [done|].
  cbn [for_each]. pose proof (invoke_OnWMDetected e s Hh) as E1.
  rewrite bool_decide_eq_true_2 in E1 by done.
  rewrite (bind_returned _ _ _ _ _ E1), (IH (set_wm_detected true s) Hh).
  by destruct errs.
Qed.

Lemma errors_some_unexpected (errs : list XErrorEvent) (s : State) :
  error_handler s = Some addr_OnWMDetected →
  Exists (λ e, error_code e ≠ BadAccess) errs →
  ∃ s', for_each errs invoke_error_handler s = (Aborted, s') ∧
        root_ s' = root_ s ∧ clients_ s' = clients_ s ∧
        calls s' = calls s ∧ error_handler s' = error_handler s ∧
        severity <$> last (log s') = Some FATAL.
Proof.
  intros Hh Hex. revert s Hh.
  induction errs as [|e errs IH]; intros s Hh; [by apply Exists_nil in Hex|].
  cbn [for_each]. pose proof (invoke_OnWMDetected e s Hh) as E1.
  case_bool_decide as He.
  - apply Exists_cons in Hex as [?|Hex]; [done|].
    rewrite (bind_returned _ _ _ _ _ E1).
    destruct (IH Hex (set_wm_detected true s) Hh)
      as (s' & -> & ? & ? & ? & ? & ?). by exists s'.
  - rewrite (bind_aborted _ _ _ _ E1). eexists. split; [done|]. cbn.
    split_and!; [done|done|by rewrite app_nil_r|done|by rewrite last_snoc].
Qed.

(** [startup] up to the point where [XSync] has returned. *)
Lemma startup_listening (st : State) (s' : State) :
  for_each (sync_errors srv (calls st ++ handshake_calls (root_ st)))
    invoke_error_handler (listening st) = (Aborted, s') →
  startup srv st = (Aborted, s').
Proof.
  unfold startup, XSync, listening, handshake_calls, substructure_mask.
  run_m. norm_calls. by intros ->.
Qed.

Lemma startup_detected_many (st : State) :
  sync_errors srv (calls st ++ handshake_calls (root_ st)) ≠ [] →
  Forall (λ e, error_code e = BadAccess)
    (sync_errors srv (calls st ++ handshake_calls (root_ st))) →
  startup srv st = (Returned true, detected st).
Proof.
  intros Hne Hall.
  pose proof (errors_all_BadAccess _ (listening st) eq_refl Hall) as E.
  revert E Hne.
  unfold startup, XSync, listening, detected, handshake_calls,
    substructure_mask.
  run_m. norm_calls. intros -> Hne.
  by destruct (sync_errors srv _).
Qed.

End Handshake.

Lemma Run_detected_many
    (srv : XServer) (events : list XEvent) (st : State) :
  sync_errors srv (calls st ++ handshake_calls (root_ st)) ≠ [] →
  Forall (λ e, error_code e = BadAccess)
    (sync_errors srv (calls st ++ handshake_calls (root_ st))) →
  Run srv events st = (Returned tt, detected st).
Proof.
  intros Hne Hall. rewrite Run_startup.
  by rewrite (bind_returned _ _ _ _ _ (startup_detected_many srv st Hne Hall)).
Qed.

(** X1: [Run] returns exactly when the handshake is answered with at least
    one error and every error is [BadAccess]; it then returns in the same
    state whatever the number of errors: the three calls of the handshake,
    the flag set, one ERROR record.  In every other case [Run] ends in the
    main loop or in a failed [CHECK]. *)
Theorem Run_returns_iff_access_denied
    (srv : XServer) (events : list XEvent) (st : State) :
  let errs := sync_errors srv (calls st ++ handshake_calls (root_ st)) in
  ((Run srv events st).1 = Returned tt ↔
   errs ≠ [] ∧ Forall (λ e, error_code e = BadAccess) errs) ∧
  ((Run srv events st).1 = Returned tt →
   Run srv events st = (Returned tt, detected st)).
Proof.
  intros errs.
  assert (errs ≠ [] → Forall (λ e, error_code e = BadAccess) errs →
          Run srv events st = (Returned tt, detected st)) as Hdetected.
  { apply Run_detected_many. }
  assert ((Run srv events st).1 = Returned tt →
          errs ≠ [] ∧ Forall (λ e, error_code e = BadAccess) errs) as Honly.
  { intros Hret.
    destruct (decide (Forall (λ e, error_code e = BadAccess) errs))
      as [Hall|Hnot].
    - split; [|done]. intros Hnil.
      destruct (Run_undetected srv events st Hnil)
        as (out & m & cs & ls & E & [->| ->]); by rewrite E in Hret.
    - apply not_Forall_Exists in Hnot; [|apply _].
      destruct (errors_some_unexpected errs (listening st) eq_refl)
        as (s' & E & _); [by eapply Exists_impl|].
      rewrite Run_startup in Hret.
      by rewrite (bind_aborted _ _ _ _ (startup_listening srv st s' E))
        in Hret. }
  split; [split|]; [done| |].
  - intros [Hne Hall]. by rewrite Hdetected.
  - intros Hret. destruct (Honly Hret). by apply Hdetected.
Qed.

(** X2: when the handshake is answered with an error that is not
    [BadAccess], the [CHECK_EQ] of [OnWMDetected] terminates the process
    inside [XSync]: the session consists of the three calls of the handshake,
    the server is never grabbed, nothing is enumerated or framed, the
    registry is as before, and the last log record is FATAL. *)
Theorem Run_aborts_on_unexpected_handshake_error
    (srv : XServer) (events : list XEvent) (st : State) :
  Exists (λ e, error_code e ≠ BadAccess)
    (sync_errors srv (calls st ++ handshake_calls (root_ st))) →
  let '(out, st') := Run srv events st in
  out = Aborted ∧
  calls st' = calls st ++ handshake_calls (root_ st) ∧
  clients_ st' = clients_ st ∧
  error_handler st' = Some addr_OnWMDetected ∧
  severity <$> last (log st') = Some FATAL.
Proof.
  intros Hex.
  destruct (errors_some_unexpected _ (listening st) eq_refl Hex)
    as (s' & E & _ & Hclients & Hcalls & Hhandler & Hlog).
  rewrite Run_startup.
  by rewrite (bind_aborted _ _ _ _ (startup_listening srv st s' E)).
Qed.

Lemma Run_aborts_on_unexpected_handshake_error_witness :
  let '(out, st') := Run confused_server [] example_state in
  out = Aborted ∧
  calls st' = calls example_state ++ handshake_calls (root_ example_state) ∧
  clients_ st' = clients_ example_state ∧
  error_handler st' = Some addr_OnWMDetected ∧
  severity <$> last (log st') = Some FATAL.
Proof.
  apply (Run_aborts_on_unexpected_handshake_error confused_server []
           example_state).
  apply Exists_cons_hd. discriminate.
Defined.

(** X3: on every path [Run] leaves [root_] as it found it, and the error
    handler installed when [Run] stops is one of the manager's own two: the
    steady-state handler [OnXError] if the handshake saw no error, the
    detection handler [OnWMDetected] if it saw any.  After an error-free
    handshake the flag stays false, whatever events are handled. *)
Theorem Run_keeps_root_and_installs_one_handler
    (srv : XServer) (events : list XEvent) (st : State) :
  let errs := sync_errors srv (calls st ++ handshake_calls (root_ st)) in
  root_ (Run srv events st).2 = root_ st ∧
  error_handler (Run srv events st).2 =
    Some (match errs with [] => addr_OnXError | _ => addr_OnWMDetected end) ∧
  (errs = [] → wm_detected_ (Run srv events st).2 = false).
Proof.
  cbn zeta.
  destruct (sync_errors srv (calls st ++ handshake_calls (root_ st)))
    as [|e errs'] eqn:Herrs.
  - destruct (Run_undetected srv events st Herrs)
      as (out & m & cs & ls & -> & _). done.
  - destruct (decide (Forall (λ e, error_code e = BadAccess) (e :: errs')))
      as [Hall|Hnot].
    + rewrite (Run_detected_many srv events st); [done|by rewrite Herrs..].
    + apply not_Forall_Exists in Hnot; [|apply _].
      destruct (errors_some_unexpected (e :: errs') (listening st) eq_refl)
        as (s' & E & Hroot & _ & _ & Hhandler & _); [by eapply Exists_impl|].
      rewrite <- Herrs in E. rewrite Run_startup.
      rewrite (bind_aborted _ _ _ _ (startup_listening srv st s' E)).
      by split_and!.
Qed.

(** ** Enumeration *)

(** X4: when the handshake passes but [XQueryTree] fails, or reports a root
    other than [root_], [Run] is terminated by the [CHECK] that follows the
    query: the server has been grabbed and queried and nothing else, no
    window is looked at or framed, and the registry is as before. *)
Theorem Run_aborts_when_enumeration_fails
    (srv : XServer) (events : list XEvent) (st : State) :
  sync_errors srv (calls st ++ handshake_calls (root_ st)) = [] →
  (query_tree srv (calls st ++ enumeration_calls (root_ st)) (root_ st) = None
   ∨ ∃ r p tl,
       query_tree srv (calls st ++ enumeration_calls (root_ st)) (root_ st)
         = Some (r, p, tl) ∧ r ≠ root_ st) →
  let '(out, st') := Run srv events st in
  out = Aborted ∧
  calls st' = calls st ++ enumeration_calls (root_ st) ∧
  clients_ st' = clients_ st ∧
  severity <$> last (log st') = Some FATAL.
Proof.
  intros Herrs Htree. rewrite Run_startup. unfold mbind, M_bind.
  rewrite (startup_undetected srv st Herrs).
  destruct Htree as [->|(r & p & tl & -> & Hr)].
  - cbn. by rewrite app_nil_r, last_snoc.
  - rewrite bool_decide_eq_false_2 by done.
    cbn. by rewrite app_nil_r, last_snoc.
Qed.

Lemma Run_aborts_when_enumeration_fails_witness :
  let '(out, st') :=
    Run misrooted_server [MapRequest {| mr_window := 11 |}] example_state in
  out = Aborted ∧
  calls st' = calls example_state ++ enumeration_calls (root_ example_state) ∧
  clients_ st' = clients_ example_state ∧
  severity <$> last (log st') = Some FATAL.
Proof.
  apply (Run_aborts_when_enumeration_fails misrooted_server
           [MapRequest {| mr_window := 11 |}] example_state).
  - reflexivity.
  - right. exists 2, 0, [11; 12; 13]. split; [reflexivity|discriminate].
Defined.

Lemma manageable_spec (a : XWindowAttributes) :
  manageable a = true ↔ override_redirect a = 0 ∧ map_state a = IsViewable.
Proof.
  unfold manageable. rewrite andb_true_iff, !Z.eqb_eq. done.
Qed.

Section Census.

Variable srv : XServer.
Variable attributes_of : Window -> XWindowAttributes.

Lemma startup_loop_creates (tl : list Window) (st : State) :
  (∀ h w, w ∈ tl → window_attributes srv h w = Some (attributes_of w)) →
  ∃ m cs ls,
    for_each tl (λ w, Frame srv w true) st
      = (Returned tt, extend st m cs ls) ∧
    count_calls creates_window cs
      = length (filter (λ w, manageable (attributes_of w) = true) tl).
Proof.
  revert st. induction tl as [|x tl IH]; intros st Hstable.
  - exists (clients_ st), [], []. cbn. by rewrite extend_nothing.
  - assert (window_attributes srv (calls st ++ [CallGetWindowAttributes x]) x
            = Some (attributes_of x)) as Hattrs by (apply Hstable; by left).
    assert (∀ st1, ∃ m2 cs2 ls2,
      for_each tl (λ w, Frame srv w true) st1
        = (Returned tt, extend st1 m2 cs2 ls2) ∧
      count_calls creates_window cs2
        = length (filter (λ w, manageable (attributes_of w) = true) tl))
      as IH'.
    { intros st1. apply IH. intros h w Hw. apply Hstable. by right. }
    cbn [for_each]. rewrite filter_cons.
    destruct (decide (manageable (attributes_of x) = true)) as [Hok|Hex].
    + rewrite (bind_returned _ _ _ _ _
                 (Frame_framed srv x true st _ Hattrs
                    (or_intror (proj1 (manageable_spec _) Hok)))).
      match goal with |- context [for_each tl _ ?st1] =>
        destruct (IH' st1) as (m2 & cs2 & ls2 & -> & Hcount) end.
      rewrite extend_extend. eexists _, _, _. split; [done|].
      rewrite count_calls_app, Hcount. done.
    + assert (override_redirect (attributes_of x) ≠ 0
              ∨ map_state (attributes_of x) ≠ IsViewable) as Hex'.
      { destruct (decide (override_redirect (attributes_of x) = 0));
          [|by left].
        right. intros ?. apply Hex. by apply manageable_spec. }
      rewrite (bind_returned _ _ _ _ _
                 (Frame_excluded srv x st _ Hattrs Hex')).
      match goal with |- context [for_each tl _ ?st1] =>
        destruct (IH' st1) as (m2 & cs2 & ls2 & -> & Hcount) end.
      rewrite extend_extend. eexists _, _, _. split; [done|].
      rewrite count_calls_app, Hcount. done.
Qed.

End Census.

(** X5: on a display without another manager whose enumerated windows are
    distinct and keep their attributes while the server is held, the session
    up to the first wait for an event creates as many frames as there are
    enumerated windows that are viewable and not override-redirect; exactly
    these windows are registered, and the registry has that many entries. *)
Theorem startup_frames_exactly_the_manageable_windows
    (srv : XServer) (attributes_of : Window -> XWindowAttributes)
    (root parent : Window) (tl : list Window) :
  sync_errors srv (handshake_calls root) = [] →
  query_tree srv (enumeration_calls root) root = Some (root, parent, tl) →
  NoDup tl →
  (∀ h w, w ∈ tl → window_attributes srv h w = Some (attributes_of w)) →
  let st' := (Run srv [] (WindowManager_ctor root)).2 in
  let framed := filter (λ w, manageable (attributes_of w) = true) tl in
  count_calls creates_window (calls st') = length framed ∧
  (∀ w, is_Some (clients_ st' !! w) ↔ w ∈ framed) ∧
  size (clients_ st') = length framed.
Proof.
  intros Herrs Htree Hnodup Hstable st' framed.
  assert (∀ h x, x ∈ tl → is_Some (window_attributes srv h x)) as Hexist.
  { intros h x Hx. rewrite (Hstable h x Hx). by eexists. }
  destruct (startup_loop_frames srv tl (grabbed (WindowManager_ctor root))
              Hnodup Hexist)
    as (m & cs & ls & E & Hout & Hframed & Hskipped).
  destruct (startup_loop_creates srv attributes_of tl
              (grabbed (WindowManager_ctor root)) Hstable)
    as (m' & cs' & ls' & E' & Hcount).
  assert (cs' = cs) as ->.
  { rewrite E in E'. by injection E' as _ Hcalls _. }
  assert (Run srv [] (WindowManager_ctor root) =
            (Blocked,
             extend (grabbed (WindowManager_ctor root)) m
               (cs ++ [CallFree; CallUngrabServer; CallNextEvent]) ls))
    as HRun.
  { rewrite Run_startup. unfold mbind at 1, M_bind.
    rewrite (startup_undetected srv (WindowManager_ctor root) Herrs).
    cbn [calls root_ WindowManager_ctor app]. rewrite Htree.
    rewrite bool_decide_eq_true_2 by done.
    rewrite (bind_returned _ _ _ _ _ E). unfold extend. run_m. run_m.
    by rewrite <- !app_assoc. }
  assert (∀ w, is_Some (m !! w) ↔ w ∈ framed) as Hdom.
  { intros w. unfold framed. rewrite list_elem_of_filter.
    destruct (decide (w ∈ tl)) as [Hw|Hw].
    - destruct (decide (manageable (attributes_of w) = true)) as [Hok|Hex].
      + destruct (Hframed w Hw) as (_ & frame & -> & _); [|by split].
        intros h a0 Ha0. rewrite (Hstable h w Hw) in Ha0.
        injection Ha0 as <-. by apply manageable_spec.
      + destruct (Hskipped w Hw) as (_ & ->).
        * intros h a0 Ha0. rewrite (Hstable h w Hw) in Ha0.
          injection Ha0 as <-.
          destruct (decide (override_redirect (attributes_of w) = 0));
            [|by left].
          right. intros ?. apply Hex. by apply manageable_spec.
        * cbn. rewrite lookup_empty. split; [by intros []|by intros []].
    - destruct (Hout w Hw) as (-> & _). cbn. rewrite lookup_empty.
      split; [by intros []|by intros []]. }
  unfold st'. rewrite HRun. cbn [snd calls clients_ extend].
  split_and!; [|done|].
  - cbn. rewrite !count_calls_app, Hcount. cbn. unfold framed. lia.
  - rewrite <- size_dom.
    assert (dom m = list_to_set framed) as ->.
    { apply set_eq. intros w.
      by rewrite elem_of_dom, elem_of_list_to_set. }
    apply size_list_to_set. by apply NoDup_filter.
Qed.

Lemma startup_frames_exactly_the_manageable_windows_witness :
  let st' := (Run example_server [] (WindowManager_ctor 1)).2 in
  let framed :=
    filter (λ w, manageable (default viewable_attributes
                               (example_attributes w)) = true)
      [11; 12; 13] in
  count_calls creates_window (calls st') = length framed ∧
  (∀ w, is_Some (clients_ st' !! w) ↔ w ∈ framed) ∧
  size (clients_ st') = length framed.
Proof.
  apply (startup_frames_exactly_the_manageable_windows example_server
           (λ w, default viewable_attributes (example_attributes w))
           1 0 [11; 12; 13]).
  - reflexivity.
  - reflexivity.
  - apply (bool_decide_unpack _). reflexivity.
  - intros h w Hw. rewrite !elem_of_cons, elem_of_nil in Hw.
    destruct Hw as [->|[->|[->|[]]]]; reflexivity.
Defined.

(** ** Map requests and unmap notifications *)

Section MapAndUnmap.

Variable srv : XServer.

Lemma OnMapRequest_framed (e : XMapRequestEvent) (st : State)
    (a : XWindowAttributes) :
  window_attributes srv (calls st ++ [CallGetWindowAttributes (mr_window e)])
    (mr_window e) = Some a →
  let w := mr_window e in
  let frame :=
    new_window srv
      (calls st ++ [CallGetWindowAttributes w; create_frame_call (root_ st) a])
  in
  OnMapRequest srv e st =
    (Returned tt,
     extend st (<[w := frame]> (clients_ st))
       (framing_calls (root_ st) w a frame ++ [CallMapWindow w])
       [info "framed window " [w; frame]]).
Proof.
  intros Hattrs w frame. unfold OnMapRequest.
  rewrite (bind_returned _ _ _ _ _ (Frame_framed srv w false st a Hattrs
                                      (or_introl eq_refl))).
  unfold extend. run_m. by norm_calls.
Qed.

(** A map request followed by the unmap notification that the new frame
    reports (the frame is not the root). *)
Lemma map_then_unmap_eq (w : Window) (st : State) (a : XWindowAttributes) :
  window_attributes srv (calls st ++ [CallGetWindowAttributes w]) w = Some a →
  let frame :=
    new_window srv
      (calls st ++ [CallGetWindowAttributes w; create_frame_call (root_ st) a])
  in
  frame ≠ root_ st →
  OnUnmapNotify {| um_event := frame; um_window := w |}
    (OnMapRequest srv {| mr_window := w |} st).2 =
  (Returned tt,
   extend st (delete w (clients_ st))
     (framing_calls (root_ st) w a frame ++ [CallMapWindow w]
      ++ unframing_calls (root_ st) w frame)
     [info "framed window " [w; frame]; info "unframed window " [w; frame]]).
Proof.
  intros Hattrs frame Hroot.
  rewrite (OnMapRequest_framed {| mr_window := w |} st a Hattrs).
  cbn [snd mr_window]. fold frame. rewrite OnUnmapNotify_eq.
  cbn [um_window um_event extend clients_ root_].
  rewrite lookup_insert_eq, bool_decide_eq_true_2 by eauto.
  rewrite bool_decide_eq_false_2 by done.
  rewrite Unframe_eq. cbn [extend clients_ root_].
  rewrite lookup_insert_eq, delete_insert_eq. cbn [default].
  unfold extend. cbn. by rewrite <- !app_assoc.
Qed.

(** X6: a map request is framed whatever the window's attributes say: the
    override-redirect and viewable tests apply to pre-existing windows only.
    For a window that is not registered and can be queried, the calls are
    those of one framing followed by [XMapWindow] of the client, the registry
    gains the one entry [w -> frame] and keeps the others, and the frame is
    created under the root with the client's own position and, for sizes
    that fit an [unsigned int], the client's own size. *)
Theorem map_request_frames_any_new_window
    (e : XMapRequestEvent) (st : State) (a : XWindowAttributes) :
  clients_ st !! mr_window e = None →
  window_attributes srv (calls st ++ [CallGetWindowAttributes (mr_window e)])
    (mr_window e) = Some a →
  let w := mr_window e in
  let frame :=
    new_window srv
      (calls st ++ [CallGetWindowAttributes w; create_frame_call (root_ st) a])
  in
  let '(out, st') := OnMapRequest srv e st in
  out = Returned tt ∧
  calls st' =
    calls st ++ framing_calls (root_ st) w a frame ++ [CallMapWindow w] ∧
  clients_ st' !! w = Some frame ∧
  (∀ w', w' ≠ w → clients_ st' !! w' = clients_ st !! w') ∧
  size (clients_ st') = S (size (clients_ st)) ∧
  (0 ≤ attr_width a < 2 ^ 32 → 0 ≤ attr_height a < 2 ^ 32 →
   create_frame_call (root_ st) a =
     CallCreateSimpleWindow (root_ st) (attr_x a) (attr_y a)
       (attr_width a) (attr_height a) 3 0xffff00 0x0000ff).
Proof.
  intros Hnew Hattrs w frame. rewrite (OnMapRequest_framed e st a Hattrs).
  cbn [extend clients_ calls]. split_and!; [done|done| | | |].
  - by rewrite lookup_insert_eq.
  - intros w' Hw'. by rewrite lookup_insert_ne.
  - by rewrite map_size_insert_None.
  - intros Hwidth Hheight. unfold create_frame_call, to_unsigned_int.
    by rewrite !Z.mod_small.
Qed.

(** X7: a map request for a window whose attributes cannot be read
    terminates the manager inside [Frame]: the query is the only call, the
    window is never mapped, the registry is as before. *)
Theorem map_request_for_vanished_window_is_fatal
    (e : XMapRequestEvent) (st : State) :
  window_attributes srv (calls st ++ [CallGetWindowAttributes (mr_window e)])
    (mr_window e) = None →
  let '(out, st') := OnMapRequest srv e st in
  out = Aborted ∧
  calls st' = calls st ++ [CallGetWindowAttributes (mr_window e)] ∧
  clients_ st' = clients_ st ∧
  severity <$> last (log st') = Some FATAL.
Proof.
  intros Hgone. unfold OnMapRequest.
  rewrite (bind_aborted _ _ _ _
             (Frame_query_failed srv (mr_window e) false st Hgone)).
  cbn. by rewrite last_snoc.
Qed.

(** X8: framing and unframing undo each other in the registry.  When a
    window that is not registered is mapped and its new frame then reports
    the window's unmapping, the registry is what it was before the map
    request; the frame that is unmapped and destroyed is the one that was
    created, and the client is put into the save set once and taken out
    once. *)
Theorem map_then_unmap_restores_registry
    (w : Window) (st : State) (a : XWindowAttributes) :
  clients_ st !! w = None →
  window_attributes srv (calls st ++ [CallGetWindowAttributes w]) w = Some a →
  let frame :=
    new_window srv
      (calls st ++ [CallGetWindowAttributes w; create_frame_call (root_ st) a])
  in
  frame ≠ root_ st →
  let st1 := (OnMapRequest srv {| mr_window := w |} st).2 in
  let '(out, st2) :=
    OnUnmapNotify {| um_event := frame; um_window := w |} st1 in
  out = Returned tt ∧
  clients_ st2 = clients_ st ∧
  calls st2 =
    calls st ++
    [CallGetWindowAttributes w; create_frame_call (root_ st) a;
     CallSelectInput frame substructure_mask; CallAddToSaveSet w;
     CallReparentWindow w frame 0 0; CallMapWindow frame; CallMapWindow w;
     CallUnmapWindow frame; CallReparentWindow w (root_ st) 0 0;
     CallRemoveFromSaveSet w; CallDestroyWindow frame].
Proof.
  intros Hnew Hattrs frame Hroot st1. subst st1 frame.
  rewrite (map_then_unmap_eq w st a Hattrs Hroot).
  cbn [extend clients_ calls]. by rewrite delete_id.
Qed.

(** X9: re-framing leaks the old frame.  When a window registered with the
    frame [old] is mapped again and its new frame then reports the window's
    unmapping, the window ends up unregistered, the new frame is destroyed,
    and no call of the two handlers unmaps or destroys [old]. *)
Theorem reframed_window_leaves_old_frame
    (w : Window) (st : State) (old : Window) (a : XWindowAttributes) :
  clients_ st !! w = Some old →
  window_attributes srv (calls st ++ [CallGetWindowAttributes w]) w = Some a →
  let frame :=
    new_window srv
      (calls st ++ [CallGetWindowAttributes w; create_frame_call (root_ st) a])
  in
  frame ≠ root_ st →
  old ≠ frame →
  let st1 := (OnMapRequest srv {| mr_window := w |} st).2 in
  let st2 :=
    (OnUnmapNotify {| um_event := frame; um_window := w |} st1).2 in
  clients_ st2 !! w = None ∧
  ∃ cs, calls st2 = calls st ++ cs ∧
        count_calls (destroys frame) cs = 1%nat ∧
        count_calls (destroys old) cs = 0%nat ∧
        CallUnmapWindow old ∉ cs.
Proof.
  intros Hold Hattrs frame Hroot Hne st1 st2. subst st2 st1 frame.
  rewrite (map_then_unmap_eq w st a Hattrs Hroot).
  cbn [snd extend clients_ calls]. split; [by rewrite lookup_delete_eq|].
  eexists. split; [done|]. cbn.
  rewrite bool_decide_eq_true_2 by done.
  rewrite bool_decide_eq_false_2 by (intros ?; by apply Hne).
  split_and!; [done|done|].
  unfold unframing_calls. rewrite !elem_of_cons, elem_of_nil. intros Hin.
  repeat (destruct Hin as [Hin|Hin]; [try done; by injection Hin|]). done.
Qed.

(** X10: an unmap notification that is not reported by the root unframes a
    registered client: the registered frame is unmapped, the client is
    reparented to the root at the origin and taken out of the save set, the
    frame is destroyed, in this order; the registry loses exactly this entry
    and so shrinks by one. *)
Theorem unmap_notify_unframes_registered_window
    (e : XUnmapEvent) (st : State) (frame : Window) :
  clients_ st !! um_window e = Some frame →
  um_event e ≠ root_ st →
  let '(out, st') := OnUnmapNotify e st in
  out = Returned tt ∧
  calls st' =
    calls st ++
    [CallUnmapWindow frame; CallReparentWindow (um_window e) (root_ st) 0 0;
     CallRemoveFromSaveSet (um_window e); CallDestroyWindow frame] ∧
  clients_ st' !! um_window e = None ∧
  (∀ w', w' ≠ um_window e → clients_ st' !! w' = clients_ st !! w') ∧
  S (size (clients_ st')) = size (clients_ st).
Proof.
  intros Hframed Hroot. rewrite OnUnmapNotify_eq, Hframed.
  rewrite bool_decide_eq_true_2 by eauto.
  rewrite bool_decide_eq_false_2 by done.
  rewrite Unframe_eq, Hframed. cbn [extend clients_ calls default].
  split_and!; [done|done| | |].
  - by rewrite lookup_delete_eq.
  - intros w' Hw'. by rewrite lookup_delete_ne.
  - rewrite map_size_delete_Some by eauto.
    assert (size (clients_ st) ≠ 0%nat); [|lia].
    intros Hempty%map_size_empty_inv. by rewrite Hempty in Hframed.
Qed.

(** X11: a client is unframed at most once.  After an unmap notification
    that is not reported by the root, the window is not registered, and any
    further unmap notification for it makes no Xlib call and leaves the
    registry alone. *)
Theorem unmap_notify_unframes_once (e : XUnmapEvent) (st : State) :
  um_event e ≠ root_ st →
  let st1 := (OnUnmapNotify e st).2 in
  clients_ st1 !! um_window e = None ∧
  ∀ e', um_window e' = um_window e →
    (OnUnmapNotify e' st1).1 = Returned tt ∧
    calls (OnUnmapNotify e' st1).2 = calls st1 ∧
    clients_ (OnUnmapNotify e' st1).2 = clients_ st1.
Proof.
  intros Hroot st1.
  assert (clients_ st1 !! um_window e = None) as Hgone.
  { unfold st1. rewrite OnUnmapNotify_eq.
    case_bool_decide as Hreg.
    - rewrite bool_decide_eq_false_2 by done.
      rewrite Unframe_eq. cbn. by rewrite lookup_delete_eq.
    - cbn. by apply eq_None_not_Some. }
  split; [done|]. intros e' He'.
  rewrite OnUnmapNotify_eq, He', Hgone.
  rewrite bool_decide_eq_false_2 by (intros [? ?]; discriminate).
  cbn. by rewrite app_nil_r.
Qed.

End MapAndUnmap.

Lemma map_request_frames_any_new_window_witness :
  let e := {| mr_window := 12 |} in
  let st := framed_state in
  let a := popup_attributes in
  let frame := 1002 in
  override_redirect a ≠ 0 ∧
  let '(out, st') := OnMapRequest example_server e st in
  out = Returned tt ∧
  calls st' =
    calls st ++ framing_calls (root_ st) 12 a frame ++ [CallMapWindow 12] ∧
  clients_ st' !! 12 = Some frame ∧
  (∀ w', w' ≠ 12 → clients_ st' !! w' = clients_ st !! w') ∧
  size (clients_ st') = S (size (clients_ st)) ∧
  (0 ≤ attr_width a < 2 ^ 32 → 0 ≤ attr_height a < 2 ^ 32 →
   create_frame_call (root_ st) a =
     CallCreateSimpleWindow (root_ st) (attr_x a) (attr_y a)
       (attr_width a) (attr_height a) 3 0xffff00 0x0000ff).
Proof.
  intros e st a frame. split; [discriminate|].
  apply (map_request_frames_any_new_window example_server e st a);
    reflexivity.
Defined.

Lemma map_request_for_vanished_window_is_fatal_witness :
  let '(out, st') :=
    OnMapRequest vanishing_server {| mr_window := 11 |} example_state in
  out = Aborted ∧
  calls st' = calls example_state ++ [CallGetWindowAttributes 11] ∧
  clients_ st' = clients_ example_state ∧
  severity <$> last (log st') = Some FATAL.
Proof.
  apply (map_request_for_vanished_window_is_fatal vanishing_server
           {| mr_window := 11 |} example_state).
  reflexivity.
Defined.

Lemma map_then_unmap_restores_registry_witness :
  let st := framed_state in
  let a := viewable_attributes in
  let frame := 1002 in
  let st1 := (OnMapRequest example_server {| mr_window := 13 |} st).2 in
  let '(out, st2) :=
    OnUnmapNotify {| um_event := frame; um_window := 13 |} st1 in
  out = Returned tt ∧
  clients_ st2 = clients_ st ∧
  calls st2 =
    calls st ++
    [CallGetWindowAttributes 13; create_frame_call (root_ st) a;
     CallSelectInput frame substructure_mask; CallAddToSaveSet 13;
     CallReparentWindow 13 frame 0 0; CallMapWindow frame; CallMapWindow 13;
     CallUnmapWindow frame; CallReparentWindow 13 (root_ st) 0 0;
     CallRemoveFromSaveSet 13; CallDestroyWindow frame].
Proof.
  intros st a frame.
  apply (map_then_unmap_restores_registry example_server 13 st a);
    [reflexivity|reflexivity|discriminate].
Defined.

Lemma reframed_window_leaves_old_frame_witness :
  let st := framed_state in
  let frame := 1002 in
  let old := 1008 in
  let st1 := (OnMapRequest example_server {| mr_window := 11 |} st).2 in
  let st2 :=
    (OnUnmapNotify {| um_event := frame; um_window := 11 |} st1).2 in
  clients_ st2 !! 11 = None ∧
  ∃ cs, calls st2 = calls st ++ cs ∧
        count_calls (destroys frame) cs = 1%nat ∧
        count_calls (destroys old) cs = 0%nat ∧
        CallUnmapWindow old ∉ cs.
Proof.
  intros st frame old.
  apply (reframed_window_leaves_old_frame example_server 11 st old
           viewable_attributes);
    [reflexivity|reflexivity|discriminate|discriminate].
Defined.

Lemma unmap_notify_unframes_registered_window_witness :
  let e := {| um_event := 1008; um_window := 11 |} in
  let st := framed_state in
  let '(out, st') := OnUnmapNotify e st in
  out = Returned tt ∧
  calls st' =
    calls st ++
    [CallUnmapWindow 1008; CallReparentWindow 11 (root_ st) 0 0;
     CallRemoveFromSaveSet 11; CallDestroyWindow 1008] ∧
  clients_ st' !! 11 = None ∧
  (∀ w', w' ≠ 11 → clients_ st' !! w' = clients_ st !! w') ∧
  S (size (clients_ st')) = size (clients_ st).
Proof.
  intros e st.
  apply (unmap_notify_unframes_registered_window e st 1008);
    [reflexivity|discriminate].
Defined.

Lemma unmap_notify_unframes_once_witness :
  let e := {| um_event := 1008; um_window := 11 |} in
  let st1 := (OnUnmapNotify e framed_state).2 in
  clients_ st1 !! 11 = None ∧
  ∀ e', um_window e' = 11 →
    (OnUnmapNotify e' st1).1 = Returned tt ∧
    calls (OnUnmapNotify e' st1).2 = calls st1 ∧
    clients_ (OnUnmapNotify e' st1).2 = clients_ st1.
Proof.
  intros e.
  apply (unmap_notify_unframes_once e framed_state). discriminate.
Defined.

(** ** The main loop *)

Section MainLoop.

Variable srv : XServer.

Lemma dispatch_quiet (e : XEvent) (st : State) :
  quiet_event e = true →
  ∃ ls, dispatch srv e st = (Returned tt, extend st (clients_ st) [] ls).
Proof.
  intros Hquiet. destruct e; try discriminate; cbn [dispatch];
    try (exists []; by rewrite extend_nothing).
  eexists [_]. unfold extend. run_m. by rewrite app_nil_r.
Qed.

Lemma dispatch_without_map_request (e : XEvent) (st : State) :
  is_map_request e = false →
  ∃ m cs ls,
    dispatch srv e st = (Returned tt, extend st m cs ls) ∧
    count_calls is_next_event cs = 0%nat ∧
    count_calls creates_window cs = 0%nat ∧
    (∀ w, is_Some (m !! w) → is_Some (clients_ st !! w)).
Proof.
  intros Hnomap.
  destruct (quiet_event e) eqn:Hquiet.
  { destruct (dispatch_quiet e st Hquiet) as [ls ->].
    by eexists _, _, _. }
  destruct e as [| | |e| |e|e| |]; try discriminate; cbn [dispatch].
  - rewrite OnUnmapNotify_eq. repeat case_bool_decide;
      rewrite ?Unframe_eq; eexists _, _, _; (split; [done|]);
      (split_and!; [done|done|]); [done| |done].
    intros w [f Hf]. apply lookup_delete_Some in Hf as [_ Hf]. by eexists.
  - rewrite OnConfigureRequest_eq.
    destruct (clients_ st !! cr_window e); by eexists _, _, _.
Qed.

(** X12: events whose handlers have an empty body, and events of a type the
    dispatcher does not know, are consumed one by one without any effect on
    the server or the registry: the only calls are one [XNextEvent] per event
    and the one in which the loop then waits.  In particular a
    destroy-notify for a framed client leaves its registry entry in place. *)
Theorem notifications_are_consumed_without_effect
    (events : list XEvent) (st : State) :
  Forall (λ e, quiet_event e = true) events →
  ∃ ls,
    event_loop srv events st =
      (Blocked,
       extend st (clients_ st)
         (replicate (S (length events)) CallNextEvent) ls).
Proof.
  intros Hquiet. revert st.
  induction Hquiet as [|e events He Hquiet IH]; intros st.
  - exists []. cbn. unfold extend. run_m. by rewrite app_nil_r.
  - rewrite event_loop_cons.
    destruct (dispatch_quiet e
                (extend st (clients_ st) [CallNextEvent]
                   [info "Received event: " []]) He) as [ls1 E1].
    rewrite (bind_returned _ _ _ _ _ E1).
    match goal with |- context [event_loop srv events ?st1] =>
      destruct (IH st1) as [ls2 ->] end.
    rewrite !extend_extend. by eexists.
Qed.

(** X13: only a map request can stop a running manager.  Whatever the
    server answers, a sequence of events without a map request is handled to
    its end and the loop waits for the next event: there is one [XNextEvent]
    per event and one more, no window is created, and no window is registered
    that was not registered before. *)
Theorem loop_survives_without_map_requests
    (events : list XEvent) (st : State) :
  Forall (λ e, is_map_request e = false) events →
  ∃ m cs ls,
    event_loop srv events st = (Blocked, extend st m cs ls) ∧
    count_calls is_next_event cs = S (length events) ∧
    count_calls creates_window cs = 0%nat ∧
    (∀ w, is_Some (m !! w) → is_Some (clients_ st !! w)).
Proof.
  intros Hnomap. revert st.
  induction Hnomap as [|e events He Hnomap IH]; intros st.
  - exists (clients_ st), [CallNextEvent], [].
    split_and!; [|done..]. cbn. unfold extend. run_m. by rewrite app_nil_r.
  - rewrite event_loop_cons.
    destruct (dispatch_without_map_request e
                (extend st (clients_ st) [CallNextEvent]
                   [info "Received event: " []]) He)
      as (m1 & cs1 & ls1 & E1 & Hnext1 & Hcreate1 & Hdom1).
    rewrite (bind_returned _ _ _ _ _ E1).
    match goal with |- context [event_loop srv events ?st1] =>
      destruct (IH st1) as (m2 & cs2 & ls2 & -> & Hnext2 & Hcreate2 & Hdom2)
    end.
    rewrite !extend_extend. eexists _, _, _. split; [done|].
    rewrite !count_calls_app, Hnext1, Hnext2, Hcreate1, Hcreate2.
    split_and!; [done|done|]. intros w Hw. by apply Hdom1, Hdom2.
Qed.


End MainLoop.

Lemma notifications_are_consumed_without_effect_witness :
  ∃ ls,
    event_loop example_server
      [DestroyNotify 11; CreateNotify 20; OtherEvent 33] framed_state =
      (Blocked,
       extend framed_state (clients_ framed_state)
         (replicate 4 CallNextEvent) ls).
Proof.
  apply (notifications_are_consumed_without_effect example_server
           [DestroyNotify 11; CreateNotify 20; OtherEvent 33] framed_state).
  repeat constructor.
Defined.

Lemma loop_survives_without_map_requests_witness :
  let events :=
    [UnmapNotify {| um_event := 1008; um_window := 11 |};
     ConfigureRequest (resize_request 11); DestroyNotify 11] in
  ∃ m cs ls,
    event_loop vanishing_server events framed_state
      = (Blocked, extend framed_state m cs ls) ∧
    count_calls is_next_event cs = 4%nat ∧
    count_calls creates_window cs = 0%nat ∧
    (∀ w, is_Some (m !! w) → is_Some (clients_ framed_state !! w)).
Proof.
  intros events.
  apply (loop_survives_without_map_requests vanishing_server events
           framed_state).
  repeat constructor.
Defined.

(** X16: unmap notifications reported by the root never unframe anything,
    however many arrive and whether or not their windows are registered: the
    loop consumes them with one [XNextEvent] each and the registry stays as
    it is. *)
Theorem unmaps_reported_by_root_are_ignored
    (srv : XServer) (events : list XEvent) (st : State) :
  Forall (λ e, unmap_reported_by (root_ st) e = true) events →
  ∃ ls,
    event_loop srv events st =
      (Blocked,
       extend st (clients_ st)
         (replicate (S (length events)) CallNextEvent) ls).
Proof.
  intros Hroot. revert st Hroot.
  induction events as [|e events IH]; intros st Hroot.
  - exists []. cbn. unfold extend. run_m. by rewrite app_nil_r.
  - apply Forall_cons in Hroot as [He Hroot].
    destruct e as [| | | | |u| | |]; try discriminate.
    cbn in He. apply bool_decide_eq_true in He.
    rewrite event_loop_cons.
    set (st1 := extend st (clients_ st) [CallNextEvent]
                  [info "Received event: " []]).
    assert (∃ ls1, dispatch srv (UnmapNotify u) st1
                   = (Returned tt, extend st1 (clients_ st1) [] ls1))
      as [ls1 E1].
    { cbn [dispatch]. rewrite OnUnmapNotify_eq.
      rewrite (bool_decide_eq_true_2 (um_event u = root_ st1)) by done.
      case_bool_decide; by eexists. }
    rewrite (bind_returned _ _ _ _ _ E1).
    destruct (IH (extend st1 (clients_ st1) [] ls1) Hroot) as [ls2 ->].
    unfold st1. rewrite !extend_extend. by eexists.
Qed.

Lemma unmaps_reported_by_root_are_ignored_witness :
  ∃ ls,
    event_loop example_server
      [UnmapNotify {| um_event := 1; um_window := 11 |};
       UnmapNotify {| um_event := 1; um_window := 12 |}] framed_state =
      (Blocked,
       extend framed_state (clients_ framed_state)
         (replicate 3 CallNextEvent) ls).
Proof.
  apply (unmaps_reported_by_root_are_ignored example_server
           [UnmapNotify {| um_event := 1; um_window := 11 |};
            UnmapNotify {| um_event := 1; um_window := 12 |}] framed_state).
  repeat constructor.
Defined.

Lemma Run_returns_iff_access_denied_witness :
  Run busy_server [MapRequest {| mr_window := 11 |}] example_state
    = (Returned tt, detected example_state).
Proof.
  apply (proj2 (Run_returns_iff_access_denied busy_server
                  [MapRequest {| mr_window := 11 |}] example_state)).
  reflexivity.
Defined.

Lemma Run_keeps_root_and_installs_one_handler_witness :
  wm_detected_
    (Run example_server [MapRequest {| mr_window := 14 |}]
       (set_wm_detected true example_state)).2 = false.
Proof.
  apply (proj2 (proj2 (Run_keeps_root_and_installs_one_handler example_server
                         [MapRequest {| mr_window := 14 |}]
                         (set_wm_detected true example_state)))).
  reflexivity.
Defined.
